(** * tusk-mcp: read-only PostgreSQL server for agents

    A shallow embedding of the parts of tusk-mcp that decide its
    specification: the read-only query classifier and the connection-string
    parser ([utils.ts]), the bounded query executor ([client.ts]), and the
    connection, TLS and tunnel resolution of [main] ([index.ts]).

    Strings.  A JavaScript string is modelled by a Rocq [string]: ASCII text
    as it is, a character outside ASCII as its UTF-8 bytes.  The delimiters,
    the word characters, the digits and the line terminators of the code are
    followed on every text.  White space and upper-casing are followed on
    ASCII text only: JavaScript's white space ([\s], [trim]) also takes
    U+00A0, U+1680, U+2000 to U+200A, U+2028, U+2029, U+202F, U+205F, U+3000
    and U+FEFF, and its [toUpperCase] also maps letters outside ASCII (U+017F
    to S, U+0131 to I, U+00DF to SS and the other cased letters), which
    [isSpace] and [toUpperCase] here leave alone.  What is proved of [trim],
    of the split at white space and of [toUpperCase] is proved of the code
    on ASCII statements.

    Numbers.  A JavaScript number of the modelled code is an integer that a
    double holds, an infinity or NaN ([num]); [parseInt] rounds what it
    reads to the nearest double.

    Effects.  A function that can throw returns a [result]; the file system,
    the shell and the SQL engine are Section variables. *)

From Stdlib Require Import List Ascii String Bool ZArith Lia DecimalString.
Import ListNotations.
Open Scope string_scope.

(** ** Exceptions *)

Inductive result (A : Type) : Type :=
| Ok (a : A)
| Throw (msg : string).
Arguments Ok {A} a.
Arguments Throw {A} msg.

Definition bind {A B : Type} (r : result A) (k : A -> result B) : result B :=
  match r with
  | Ok a => k a
  | Throw msg => Throw msg
  end.

Notation "'do' x <- r ; k" := (bind r (fun x => k))
  (at level 10, x name, r at level 100, k at level 200).

(** [try { a } catch { b }] *)
Definition tryCatch {A : Type} (a : result A) (b : result A) : result A :=
  match a with
  | Ok v => Ok v
  | Throw _ => b
  end.

(** A JavaScript number of the modelled code: an integer, an infinity or
    NaN. *)
Inductive num : Type :=
| NaN
| Num (z : Z)
| Infinity (negative : bool).

Definition isNaN (n : num) : bool :=
  match n with NaN => true | _ => false end.

(** ** The JavaScript built-ins the code uses *)

Module JS.

Definition code (c : ascii) : N := N_of_ascii c.

Definition between (lo hi : N) (c : ascii) : bool :=
  ((lo <=? code c) && (code c <=? hi))%N.

(** The ASCII characters of [\s] and of what [trim] removes: TAB, LF, VT,
    FF, CR, SPACE.  The white space outside ASCII (U+00A0, U+FEFF, U+2028
    and the others) is not followed. *)
Definition isSpace (c : ascii) : bool :=
  between 9 13 c || (code c =? 32)%N.

(** The one-byte characters [.] does not match: LF and CR. *)
Definition isLineTerminator (c : ascii) : bool :=
  (code c =? 10)%N || (code c =? 13)%N.

(** The line separator U+2028 and the paragraph separator U+2029, which
    [.] does not match either, in UTF-8. *)
Definition lineSeparator : string :=
  String "226" (String "128" (String "168" "")).

Definition paragraphSeparator : string :=
  String "226" (String "128" (String "169" "")).

(** A line terminator stands at the start of [s]. *)
Definition atLineTerminator (s : string) : bool :=
  match s with
  | "" => false
  | String c _ =>
      isLineTerminator c || prefix lineSeparator s
      || prefix paragraphSeparator s
  end.

(** [\w]: [A-Za-z0-9_]. *)
Definition isWordChar (c : ascii) : bool :=
  between 65 90 c || between 97 122 c || between 48 57 c || (code c =? 95)%N.

(** [toUpperCase] on ASCII: the letters a to z.  The cased letters outside
    ASCII are not followed. *)
Definition upperChar (c : ascii) : ascii :=
  if between 97 122 c then ascii_of_N (code c - 32) else c.

Fixpoint toUpperCase (s : string) : string :=
  match s with
  | "" => ""
  | String c t => String (upperChar c) (toUpperCase t)
  end.

Fixpoint trimStart (s : string) : string :=
  match s with
  | "" => ""
  | String c t => if isSpace c then trimStart t else s
  end.

Fixpoint trimEnd (s : string) : string :=
  match s with
  | "" => ""
  | String c t =>
      match trimEnd t with
      | "" => if isSpace c then "" else String c ""
      | t' => String c t'
      end
  end.

Definition trim (s : string) : string := trimEnd (trimStart s).

(** A JavaScript string is truthy when it is not empty. *)
Definition nonEmpty (s : string) : bool :=
  match s with "" => false | _ => true end.

(** Truthiness of an optional string: [undefined] and [""] are falsy. *)
Definition truthy (o : option string) : bool :=
  match o with Some s => nonEmpty s | None => false end.

(** [s || undefined] *)
Definition orUndefined (s : string) : option string :=
  if nonEmpty s then Some s else None.

(** [a ?? b] *)
Definition nullish {A : Type} (a : option A) (b : A) : A :=
  match a with Some v => v | None => b end.

Definition nullishOpt {A : Type} (a b : option A) : option A :=
  match a with Some v => Some v | None => b end.

Fixpoint drop (n : nat) (s : string) : string :=
  match n, s with
  | O, _ => s
  | S k, String _ t => drop k t
  | S _, "" => ""
  end.

Fixpoint take (n : nat) (s : string) : string :=
  match n, s with
  | S k, String c t => String c (take k t)
  | _, _ => ""
  end.

(** [s.slice(from)] and [s.slice(from, to)] for indices that are not
    negative. *)
Definition slice (s : string) (from : nat) (to : option nat) : string :=
  match to with
  | None => drop from s
  | Some e => take (e - from) (drop from s)
  end.

(** [s.indexOf(pat)]; [None] stands for -1. *)
Fixpoint indexOf (s pat : string) : option nat :=
  if prefix pat s then Some O
  else match s with
       | "" => None
       | String _ t => option_map S (indexOf t pat)
       end.

(** [s.lastIndexOf(pat)]; [None] stands for -1. *)
Fixpoint lastIndexOf (s pat : string) : option nat :=
  match s with
  | "" => if prefix pat "" then Some O else None
  | String _ t =>
      match lastIndexOf t pat with
      | Some i => Some (S i)
      | None => if prefix pat s then Some O else None
      end
  end.

(** [s.split(sep)] for a separator string that is not empty: the pair of the
    field being read and the fields after it.  [skip] counts the characters
    of a separator occurrence still to pass. *)
Fixpoint splitFields (sep : string) (skip : nat) (s : string)
  : string * list string :=
  match s with
  | "" => ("", [])
  | String c t =>
      match skip with
      | S k => splitFields sep k t
      | O =>
          if prefix sep s
          then ("", let (f, fs) := splitFields sep (String.length sep - 1) t
                    in f :: fs)
          else let (f, fs) := splitFields sep 0 t in (String c f, fs)
      end
  end.

Definition split (s sep : string) : list string :=
  let (f, fs) := splitFields sep 0 s in f :: fs.

(** [s.split(/\s+/)]: [inRun] holds while a run of white space is passed. *)
Fixpoint splitSpaces (inRun : bool) (s : string) : string * list string :=
  match s with
  | "" => ("", [])
  | String c t =>
      if isSpace c then
        if inRun then splitSpaces true t
        else ("", let (f, fs) := splitSpaces true t in f :: fs)
      else let (f, fs) := splitSpaces false t in (String c f, fs)
  end.

Definition splitWhitespace (s : string) : list string :=
  let (f, fs) := splitSpaces false s in f :: fs.

(** [arr.includes(x)] on an array of strings. *)
Definition includes (arr : list string) (x : string) : bool :=
  existsb (String.eqb x) arr.

(** [s.replace(re, ' ')] for a global regular expression [re] that never
    matches the empty string.  [matchAt s] is the length of the match of [re]
    at the start of [s], if any; [skip] counts the characters of the current
    match still to pass. *)
Fixpoint replaceAll (matchAt : string -> option nat) (skip : nat) (s : string)
  : string :=
  match s with
  | "" => ""
  | String c t =>
      match skip with
      | S k => replaceAll matchAt k t
      | O =>
          match matchAt s with
          | Some (S k) => String " " (replaceAll matchAt k t)
          | _ => String c (replaceAll matchAt 0 t)
          end
      end
  end.

Fixpoint allSpace (s : string) : bool :=
  match s with
  | "" => true
  | String c t => isSpace c && allSpace t
  end.

(** [s.replace(/;\s*$/, '')]: the leftmost semicolon that only white space
    follows is removed with that white space. *)
Fixpoint stripTerminator (s : string) : string :=
  match s with
  | "" => ""
  | String c t =>
      if Ascii.eqb c ";" && allSpace t then "" else String c (stripTerminator t)
  end.

(** *** Whole-word search: [new RegExp("\\b" + kw + "\\b").test(s)] *)

Fixpoint matchPrefix (p s : string) : option string :=
  match p with
  | "" => Some s
  | String a p' =>
      match s with
      | "" => None
      | String b s' => if Ascii.eqb a b then matchPrefix p' s' else None
      end
  end.

Definition head (s : string) : option ascii :=
  match s with "" => None | String c _ => Some c end.

(** The last character of [prev] followed by [p]. *)
Fixpoint lastOf (prev : option ascii) (p : string) : option ascii :=
  match p with
  | "" => prev
  | String c t => lastOf (Some c) t
  end.

Definition isWord (o : option ascii) : bool :=
  match o with Some c => isWordChar c | None => false end.

(** [\b] between the character before and the character after. *)
Definition atBoundary (prev next : option ascii) : bool :=
  xorb (isWord prev) (isWord next).

Definition matchWordHere (kw : string) (prev : option ascii) (s : string)
  : bool :=
  atBoundary prev (head s) &&
  match matchPrefix kw s with
  | Some rest => atBoundary (lastOf prev kw) (head rest)
  | None => false
  end.

Fixpoint searchWord (kw : string) (prev : option ascii) (s : string) : bool :=
  matchWordHere kw prev s ||
  match s with
  | "" => false
  | String c t => searchWord kw (Some c) t
  end.

Definition testWord (kw s : string) : bool := searchWord kw None s.

(** *** [parseInt(s)] without a radix *)

Definition digitValue (c : ascii) : option Z :=
  if between 48 57 c then Some (Z.of_N (code c) - 48)%Z
  else if between 97 122 c then Some (Z.of_N (code c) - 87)%Z
  else if between 65 90 c then Some (Z.of_N (code c) - 55)%Z
  else None.

Definition digitIn (radix : Z) (c : ascii) : option Z :=
  match digitValue c with
  | Some d => if (d <? radix)%Z then Some d else None
  | None => None
  end.

(** The value of the longest prefix of digits, [None] when it is empty. *)
Fixpoint readDigits (radix : Z) (acc : option Z) (s : string) : option Z :=
  match s with
  | "" => acc
  | String c t =>
      match digitIn radix c with
      | Some d => readDigits radix (Some (nullish acc 0 * radix + d)%Z) t
      | None => acc
      end
  end.

Definition readMagnitude (s : string) : option Z :=
  match s with
  | String "0" (String "x" t) => readDigits 16 None t
  | String "0" (String "X" t) => readDigits 16 None t
  | _ => readDigits 10 None s
  end.

(** The Number for an integer: the nearest double, ties to the even
    mantissa; from 2^1024 on, an infinity. *)
Definition toNumber (z : Z) : num :=
  let a := Z.abs z in
  if (a <? 2 ^ 53)%Z then Num z
  else
    let e := (Z.log2 a - 52)%Z in
    let q := Z.shiftr a e in
    let r := (a - Z.shiftl q e)%Z in
    let half := Z.shiftl 1 (e - 1) in
    let q' := if (half <? r)%Z || ((r =? half)%Z && Z.odd q)
              then (q + 1)%Z else q in
    let v := Z.shiftl q' e in
    if (2 ^ 1024 <=? v)%Z then Infinity (z <? 0)%Z
    else Num (Z.sgn z * v).

Definition parseInt (s : string) : num :=
  let (sign, body) :=
    match trimStart s with
    | String "-" t => ((-1)%Z, t)
    | String "+" t => (1%Z, t)
    | t => (1%Z, t)
    end in
  match readMagnitude body with
  | Some v => toNumber (sign * v)
  | None => NaN
  end.

(** *** [decodeURIComponent(s)]; [None] stands for a URIError *)

Definition hexValue (c : ascii) : option N :=
  match digitIn 16 c with
  | Some d => Some (Z.to_N d)
  | None => None
  end.

(** An escape [%XY] at the start of [s]: its byte and the rest. *)
Definition readEscape (s : string) : option (N * string) :=
  match s with
  | String "%" (String h1 (String h2 t)) =>
      match hexValue h1, hexValue h2 with
      | Some a, Some b => Some (16 * a + b, t)%N
      | _, _ => None
      end
  | _ => None
  end.

(** What a first byte from 0x80 asks of the bytes after it in well-formed
    UTF-8: how many follow, and the range of the next one. *)
Definition utf8Lead (b : N) : option (nat * N * N) :=
  (if (194 <=? b) && (b <=? 223) then Some (1%nat, 128, 191)
   else if b =? 224 then Some (2%nat, 160, 191)
   else if (b =? 237) then Some (2%nat, 128, 159)
   else if (225 <=? b) && (b <=? 239) then Some (2%nat, 128, 191)
   else if b =? 240 then Some (3%nat, 144, 191)
   else if (241 <=? b) && (b <=? 243) then Some (3%nat, 128, 191)
   else if b =? 244 then Some (3%nat, 128, 143)
   else None)%N.

(** [need] bytes of the current UTF-8 sequence are still expected, the next
    one between [lo] and [hi]; each must come from an escape. *)
Fixpoint decodeFrom (need : nat) (lo hi : N) (s : string) : option string :=
  match s with
  | "" => match need with O => Some "" | S _ => None end
  | String c t =>
      match need with
      | O =>
          if Ascii.eqb c "%" then
            match t with
            | String h1 (String h2 t') =>
                match hexValue h1, hexValue h2 with
                | Some a, Some b =>
                    let byte := (16 * a + b)%N in
                    if (byte <? 128)%N
                    then option_map (String (ascii_of_N byte))
                                    (decodeFrom 0 0 0 t')
                    else match utf8Lead byte with
                         | Some (n, lo', hi') =>
                             option_map (String (ascii_of_N byte))
                                        (decodeFrom n lo' hi' t')
                         | None => None
                         end
                | _, _ => None
                end
            | _ => None
            end
          else option_map (String c) (decodeFrom 0 0 0 t)
      | S k =>
          if Ascii.eqb c "%" then
            match t with
            | String h1 (String h2 t') =>
                match hexValue h1, hexValue h2 with
                | Some a, Some b =>
                    let byte := (16 * a + b)%N in
                    if ((lo <=? byte) && (byte <=? hi))%N
                    then option_map (String (ascii_of_N byte))
                                    (decodeFrom k 128 191 t')
                    else None
                | _, _ => None
                end
            | _ => None
            end
          else None
      end
  end.

Definition decodeURIComponent (s : string) : option string :=
  decodeFrom 0 0 0 s.

(** [`${n}`] for an integer. *)
Definition numberToString (z : Z) : string :=
  NilEmpty.string_of_int (Z.to_int z).

(** [arr.slice(0, e)] *)
Definition arraySlice0 {A : Type} (arr : list A) (e : Z) : list A :=
  if (e <? 0)%Z
  then firstn (Z.to_nat (Z.max (Z.of_nat (List.length arr) + e) 0)) arr
  else firstn (Z.to_nat e) arr.

End JS.

(** ** types.ts *)

Module Types.

(** [PostgresConnectionOptions.ssl]: [false] or a TLS options object. *)
Record SslObject : Type := mkSslObject {
  rejectUnauthorized : bool;
  ca : option string;
  cert : option string;
  key : option string
}.

Inductive SslSetting : Type :=
| SslFalse
| SslOptions (o : SslObject).

(** [PostgresConnectionOptions]; the value [parseConnectionString] returns
    has the first five keys, all of them present (some holding
    [undefined]), and no [ssl] key. *)
Record PostgresConnectionOptions : Type := mkOptions {
  host : string;
  port : num;
  user : option string;
  password : option string;
  database : option string;
  ssl : option SslSetting
}.

(** The command-line values, with the two ports of type [P]: a string as
    [parseArgs] returns them, a number in [ConnectionFlags]. *)
Record Flags (P : Type) : Type := mkFlags {
  flag_host : option string;
  flag_port : option P;
  flag_user : option string;
  flag_password : option string;
  flag_password_file : option string;
  flag_password_cmd : option string;
  flag_database : option string;
  flag_connection_string : option string;
  flag_ssl : bool;
  flag_ssl_ca : option string;
  flag_ssl_cert : option string;
  flag_ssl_key : option string;
  flag_ssh_host : option string;
  flag_ssh_port : option P;
  flag_ssh_user : option string;
  flag_ssh_key : option string;
  flag_ssh_password : option string;
  flag_structure_only : bool
}.
Arguments mkFlags {P}.
Arguments flag_host {P}.
Arguments flag_port {P}.
Arguments flag_user {P}.
Arguments flag_password {P}.
Arguments flag_password_file {P}.
Arguments flag_password_cmd {P}.
Arguments flag_database {P}.
Arguments flag_connection_string {P}.
Arguments flag_ssl {P}.
Arguments flag_ssl_ca {P}.
Arguments flag_ssl_cert {P}.
Arguments flag_ssl_key {P}.
Arguments flag_ssh_host {P}.
Arguments flag_ssh_port {P}.
Arguments flag_ssh_user {P}.
Arguments flag_ssh_key {P}.
Arguments flag_ssh_password {P}.
Arguments flag_structure_only {P}.

Definition CliValues : Type := Flags string.
Definition ConnectionFlags : Type := Flags num.

(** The environment variables [main] reads. *)
Record Env : Type := mkEnv {
  PGHOST : option string;
  PGPORT : option string;
  PGUSER : option string;
  PGPASSWORD : option string;
  PGDATABASE : option string;
  DATABASE_URL : option string
}.

Record TunnelOptions : Type := mkTunnelOptions {
  sshHost : string;
  sshPort : num;
  sshUser : string;
  sshKey : option string;
  sshPassword : option string;
  targetHost : string;
  targetPort : num
}.

(** A value of a result column. *)
Inductive SqlValue : Type :=
| SqlNull
| SqlText (s : string)
| SqlInt (z : Z)
| SqlBool (b : bool).

(** A row: its columns in order, each with its value. *)
Definition Row : Type := list (string * SqlValue).

Record QueryResult : Type := mkQueryResult {
  columns : list string;
  rows : list Row;
  rowCount : nat;
  truncated : bool
}.

End Types.

(** ** utils.ts *)

Module Utils.
Import JS Types.

Definition ALLOWED_PREFIXES : list string :=
  ["SELECT"; "WITH"; "EXPLAIN"; "SHOW"; "VALUES"; "TABLE"].

Definition WRITE_KEYWORDS : list string :=
  ["INSERT"; "UPDATE"; "DELETE"; "DROP"; "ALTER"; "TRUNCATE";
   "CREATE"; "GRANT"; "REVOKE"; "COPY"; "MERGE"; "CALL";
   "DO"; "LOCK"; "REINDEX"; "REFRESH"; "CLUSTER"; "VACUUM";
   "DISCARD"; "SET"; "RESET"; "BEGIN"; "COMMIT"; "ROLLBACK";
   "SAVEPOINT"; "PREPARE"; "DEALLOCATE"; "EXECUTE"; "REASSIGN"; "IMPORT"].

(** The match of [/\/\*[\s\S]*?\*\//] at the start of [s]: an opening
    [/*] and the text up to the first [*/] after it. *)
Definition blockComment (s : string) : option nat :=
  if prefix "/*" s
  then option_map (fun j => 2 + j + 2) (indexOf (drop 2 s) "*/")
  else None.

Fixpoint lineLength (s : string) : nat :=
  match s with
  | "" => 0
  | String c t => if atLineTerminator s then 0 else S (lineLength t)
  end.

(** The match of [/--.*$/m]: two dashes and the rest of the line. *)
Definition lineComment (s : string) : option nat :=
  if prefix "--" s then Some (2 + lineLength (drop 2 s)) else None.

(** The match of the dollar-quote expression (a dollar, a tag without
    dollars as group 1, a dollar, a lazy run of any characters, and the tag
    between dollars again): an opening [$tag$], where the tag runs to the
    next dollar, and the text up to the first [$tag$] after it. *)
Definition dollarQuoted (s : string) : option nat :=
  match s with
  | String "$" t =>
      match indexOf t "$" with
      | Some k =>
          let closing := "$" ++ take k t ++ "$" in
          option_map (fun j => 1 + k + 1 + j + String.length closing)
                     (indexOf (drop (k + 1) t) closing)
      | None => None
      end
  | _ => None
  end.

(** The match of [/q[^q]*q/] for a quote character [q]. *)
Definition quoted (q : ascii) (s : string) : option nat :=
  match s with
  | String c t =>
      if Ascii.eqb c q
      then option_map (fun k => k + 2) (indexOf t (String q ""))
      else None
  | "" => None
  end.

Definition stripNonCode (query : string) : string :=
  let s1 := replaceAll blockComment 0 query in
  let s2 := replaceAll lineComment 0 s1 in
  let s3 := replaceAll dollarQuoted 0 s2 in
  let s4 := replaceAll (quoted "'") 0 s3 in
  replaceAll (quoted "034") 0 s4.

(** The loop over [WRITE_KEYWORDS]: true when a keyword is found. *)
Fixpoint findKeyword (keywords : list string) (upper : string) : bool :=
  match keywords with
  | [] => false
  | keyword :: more =>
      if testWord keyword upper then true else findKeyword more upper
  end.

Definition isReadOnlyQuery (query : string) : bool :=
  let stripped := trim (stripNonCode query) in
  if negb (nonEmpty stripped) then false
  else
    let upper := toUpperCase stripped in
    let firstWord := hd "" (splitWhitespace upper) in
    if negb (includes ALLOWED_PREFIXES firstWord) then false
    else if findKeyword WRITE_KEYWORDS upper then false
    else true.

Definition decodeComponent (s : string) : string :=
  match decodeURIComponent s with
  | Some d => d
  | None => s
  end.

Definition parseConnectionString (cs : string)
  : result PostgresConnectionOptions :=
  match indexOf cs "://" with
  | None =>
      Throw "Invalid connection string — expected postgresql:// prefix"
  | Some schemeEnd =>
      let rest := slice cs (schemeEnd + 3) None in
      match lastIndexOf rest "@" with
      | None =>
          Throw "Invalid connection string — missing @ between credentials and host"
      | Some lastAt =>
          let userInfo := slice rest 0 (Some lastAt) in
          let hostPart := slice rest (lastAt + 1) None in
          let colonIdx := indexOf userInfo ":" in
          let user_ :=
            match colonIdx with
            | Some i => decodeComponent (slice userInfo 0 (Some i))
            | None => decodeComponent userInfo
            end in
          let password_ :=
            match colonIdx with
            | Some i => Some (decodeComponent (slice userInfo (i + 1) None))
            | None => None
            end in
          let pathIdx := indexOf hostPart "/" in
          let hostPort :=
            match pathIdx with
            | Some i => slice hostPart 0 (Some i)
            | None => hostPart
            end in
          let dbRaw :=
            match pathIdx with
            | Some i => Some (slice hostPart (i + 1) None)
            | None => None
            end in
          let database_ :=
            match dbRaw with
            | Some d => orUndefined (hd "" (split d "?"))
            | None => None
            end in
          let portIdx := lastIndexOf hostPort ":" in
          let host_ :=
            match portIdx with
            | Some i => slice hostPort 0 (Some i)
            | None => hostPort
            end in
          let port_ :=
            match portIdx with
            | Some i => parseInt (slice hostPort (i + 1) None)
            | None => Num 5432
            end in
          Ok {| host := if nonEmpty host_ then host_ else "localhost";
                port := if isNaN port_ then Num 5432 else port_;
                user := orUndefined user_;
                password := match password_ with
                            | Some p => orUndefined p
                            | None => None
                            end;
                database := database_;
                ssl := None |}
      end
  end.

End Utils.

(** ** client.ts *)

Module Client.
Import JS Types.

Record Column : Type := mkColumn { name : string }.

(** What the SQL engine returns: the rows and, possibly, the metadata of
    the columns. *)
Record RowList : Type := mkRowList {
  fetched : list Row;
  fetchedColumns : option (list Column)
}.

Section Engine.

(** [sql.unsafe]: runs a statement text, or throws. *)
Variable unsafe : string -> result RowList.

Definition effectiveLimitOf (limit : Z) : Z := Z.min limit 5000.

Definition cleanQuery (query : string) : string :=
  trim (stripTerminator query).

(** The [try]/[catch] of [executeQuery]: the statement wrapped as a
    subquery, and when the engine refuses that, the statement with a bare
    LIMIT. *)
Definition fetchRows (cleaned : string) (fetchCount : Z) : result RowList :=
  tryCatch
    (unsafe ("SELECT * FROM (" ++ cleaned ++ ") AS _tusk_result LIMIT "
             ++ numberToString fetchCount))
    (unsafe (cleaned ++ " LIMIT " ++ numberToString fetchCount)).

Definition executeQuery (query : string) (limit : Z) : result QueryResult :=
  let effectiveLimit := effectiveLimitOf limit in
  let cleaned := cleanQuery query in
  let fetchCount := (effectiveLimit + 1)%Z in
  do rows_ <- fetchRows cleaned fetchCount;
  let truncated_ :=
    (Z.of_nat (List.length (fetched rows_)) >? effectiveLimit)%Z in
  let resultRows :=
    if truncated_ then arraySlice0 (fetched rows_) effectiveLimit
    else fetched rows_ in
  let columns_ :=
    match fetched rows_ with
    | first :: _ => map fst first
    | [] => match fetchedColumns rows_ with
            | Some cs => map name cs
            | None => []
            end
    end in
  Ok {| columns := columns_;
        rows := resultRows;
        rowCount := List.length resultRows;
        truncated := truncated_ |}.

End Engine.

End Client.

(** ** tools/query.ts *)

Module QueryTools.

(** The description of the [execute-query] tool. *)
Definition description : string :=
  "Execute a read-only SQL query. Only SELECT, WITH, EXPLAIN, SHOW, and VALUES are allowed. Results are limited by the limit parameter.".

(** The statement kinds the description names. *)
Definition ADVERTISED : list string :=
  ["SELECT"; "WITH"; "EXPLAIN"; "SHOW"; "VALUES"].

End QueryTools.

(** ** tunnel.ts *)

Module Tunnel.
Import JS Types.

(** The settings [createTunnel] passes to [ssh.connect]. *)
Record ConnectConfig : Type := mkConnectConfig {
  ssh_host : string;
  ssh_port : num;
  username : string;
  privateKey : option string;
  ssh_password : option string
}.

Section Files.

Variable readFile : string -> result string.

(** [createTunnel] up to the call of [ssh.connect]: the private key is
    read when a path is given, and the session is asked for with what the
    options hold. *)
Definition connectConfig (options : TunnelOptions) : result ConnectConfig :=
  do privateKey_ <-
    (if truthy (sshKey options)
     then do text <- readFile (nullish (sshKey options) ""); Ok (Some text)
     else Ok None);
  Ok {| ssh_host := sshHost options;
        ssh_port := sshPort options;
        username := sshUser options;
        privateKey := privateKey_;
        ssh_password := sshPassword options |}.

End Files.

End Tunnel.

(** ** index.ts *)

Module Index.
Import JS Types Utils.

(** What [main] has settled when it reaches the network: the connection
    options, and the tunnel it asks [createTunnel] for, if any. *)
Record Startup : Type := mkStartup {
  connOptions : PostgresConnectionOptions;
  tunnelRequest : option TunnelOptions;
  structureOnly : bool
}.

(** [{ ...base, ...parsed }] for a value of [parseConnectionString]: its
    five keys are all present, so each replaces the key of [base], also
    when it holds [undefined]. *)
Definition spread (base parsed : PostgresConnectionOptions)
  : PostgresConnectionOptions :=
  {| host := host parsed;
     port := port parsed;
     user := user parsed;
     password := password parsed;
     database := database parsed;
     ssl := ssl base |}.

Section World.

(** [readFile(path, 'utf-8')] and [execSync(cmd, { encoding: 'utf-8' })]. *)
Variable readFile : string -> result string.
Variable execSync : string -> result string.
(** [process.env] *)
Variable env : Env.

Definition resolvePassword (flags : ConnectionFlags)
  : result (option string) :=
  if truthy (flag_password flags) then Ok (flag_password flags)
  else if truthy (flag_password_file flags) then
    do text <- readFile (nullish (flag_password_file flags) "");
    Ok (Some (trim text))
  else if truthy (flag_password_cmd flags) then
    tryCatch
      (do out <- execSync (nullish (flag_password_cmd flags) "");
       Ok (Some (trim out)))
      (Throw "password-cmd failed")
  else Ok (PGPASSWORD env).

(** [if (flags[k]) config[k] = await readFile(flags[k], 'utf-8')] *)
Definition readIfGiven (path : option string) : result (option string) :=
  if truthy path then
    do text <- readFile (nullish path "");
    Ok (Some text)
  else Ok None.

Definition buildSslConfig (flags : ConnectionFlags) : result SslSetting :=
  if negb (flag_ssl flags) && negb (truthy (flag_ssl_ca flags))
     && negb (truthy (flag_ssl_cert flags))
     && negb (truthy (flag_ssl_key flags))
  then Ok SslFalse
  else if negb (truthy (flag_ssl_ca flags))
          && negb (truthy (flag_ssl_cert flags))
          && negb (truthy (flag_ssl_key flags))
  then Ok (SslOptions {| rejectUnauthorized := false;
                         ca := None; cert := None; key := None |})
  else
    do ca_ <- readIfGiven (flag_ssl_ca flags);
    do cert_ <- readIfGiven (flag_ssl_cert flags);
    do key_ <- readIfGiven (flag_ssl_key flags);
    Ok (SslOptions {| rejectUnauthorized := true;
                      ca := ca_; cert := cert_; key := key_ |}).

(** [flags.port ? parseInt(flags.port) : undefined] *)
Definition parsePort (p : option string) : option num :=
  if truthy p then Some (parseInt (nullish p "")) else None.

(** [parsedFlags] of [main]. *)
Definition parseFlags (values : CliValues) : ConnectionFlags :=
  {| flag_host := flag_host values;
     flag_port := parsePort (flag_port values);
     flag_user := flag_user values;
     flag_password := flag_password values;
     flag_password_file := flag_password_file values;
     flag_password_cmd := flag_password_cmd values;
     flag_database := flag_database values;
     flag_connection_string := flag_connection_string values;
     flag_ssl := flag_ssl values;
     flag_ssl_ca := flag_ssl_ca values;
     flag_ssl_cert := flag_ssl_cert values;
     flag_ssl_key := flag_ssl_key values;
     flag_ssh_host := flag_ssh_host values;
     flag_ssh_port := parsePort (flag_ssh_port values);
     flag_ssh_user := flag_ssh_user values;
     flag_ssh_key := flag_ssh_key values;
     flag_ssh_password := flag_ssh_password values;
     flag_structure_only := flag_structure_only values |}.

(** The first value of [base] in [main]: the PG* variables and the
    defaults. *)
Definition envOptions : PostgresConnectionOptions :=
  {| host := nullish (PGHOST env) "localhost";
     port := if truthy (PGPORT env)
             then parseInt (nullish (PGPORT env) "")
             else Num 5432;
     user := PGUSER env;
     password := PGPASSWORD env;
     database := PGDATABASE env;
     ssl := None |}.

(** [if (cs) base = { ...base, ...parseConnectionString(cs) }] *)
Definition overlay (base : PostgresConnectionOptions) (cs : option string)
  : result PostgresConnectionOptions :=
  if truthy cs then
    do parsed <- parseConnectionString (nullish cs "");
    Ok (spread base parsed)
  else Ok base.

(** [base] of [main] after the two connection strings. *)
Definition baseOptions (flags : ConnectionFlags)
  : result PostgresConnectionOptions :=
  do base <- overlay envOptions (DATABASE_URL env);
  overlay base (flag_connection_string flags).

(** [connOptions] of [main], before the TLS settings are added. *)
Definition mergeOptions (flags : ConnectionFlags)
  (base : PostgresConnectionOptions) (password_ : option string)
  : PostgresConnectionOptions :=
  {| host := nullish (flag_host flags) (host base);
     port := nullish (flag_port flags) (port base);
     user := nullishOpt (flag_user flags) (user base);
     password := nullishOpt password_ (password base);
     database := nullishOpt (flag_database flags) (database base);
     ssl := None |}.

Definition withSsl (o : PostgresConnectionOptions) (s : SslSetting)
  : PostgresConnectionOptions :=
  {| host := host o; port := port o; user := user o;
     password := password o; database := database o; ssl := Some s |}.

(** The tunnel part of [main], up to the call of [createTunnel]: the
    options passed to it, [None] without [--ssh-host]. *)
Definition tunnelOptions (flags : ConnectionFlags)
  (conn : PostgresConnectionOptions) : result (option TunnelOptions) :=
  if truthy (flag_ssh_host flags) then
    if negb (truthy (flag_ssh_user flags))
    then Throw "--ssh-user is required when using --ssh-host"
    else if negb (truthy (flag_ssh_key flags))
            && negb (truthy (flag_ssh_password flags))
    then Throw "--ssh-key or --ssh-password is required when using --ssh-host"
    else Ok (Some {| sshHost := nullish (flag_ssh_host flags) "";
                     sshPort := nullish (flag_ssh_port flags) (Num 22);
                     sshUser := nullish (flag_ssh_user flags) "";
                     sshKey := flag_ssh_key flags;
                     sshPassword := flag_ssh_password flags;
                     targetHost := host conn;
                     targetPort := port conn |})
  else Ok None.

(** [main] without the [setup] command, up to the point where it opens the
    tunnel and the database client. *)
Definition main (values : CliValues) : result Startup :=
  let parsedFlags := parseFlags values in
  do base <- baseOptions parsedFlags;
  do password_ <- resolvePassword parsedFlags;
  let conn := mergeOptions parsedFlags base password_ in
  do sslConfig <- buildSslConfig parsedFlags;
  let conn' := withSsl conn sslConfig in
  do tunnel <- tunnelOptions parsedFlags conn';
  Ok {| connOptions := conn';
        tunnelRequest := tunnel;
        structureOnly := flag_structure_only parsedFlags |}.

End World.

End Index.

(** ** The notions of the specification *)

Module Spec.
Import JS Types Utils.

(** [w] occurs in [s] as a whole word: no word character stands directly
    before or after the occurrence. *)
Definition occursAsWord (w s : string) : Prop :=
  exists pre post,
    s = pre ++ w ++ post /\
    isWord (lastOf None pre) = false /\
    isWord (head post) = false.

(** A word: not empty, made of word characters. *)
Fixpoint allWordChars (s : string) : bool :=
  match s with
  | "" => true
  | String c t => isWordChar c && allWordChars t
  end.

Definition isKeywordShaped (s : string) : bool :=
  nonEmpty s && allWordChars s.

(** The characters of [s] before its first white space. *)
Fixpoint takeToken (s : string) : string :=
  match s with
  | "" => ""
  | String c t => if isSpace c then "" else String c (takeToken t)
  end.

(** The first white-space-delimited token of [s]. *)
Definition firstToken (s : string) : string := takeToken (trimStart s).

(** The line feed, as a string. *)
Definition LF : string := String "010" "".

(** [TlsConfig] of the data model. *)
Inductive TlsConfig : Type :=
| Disabled
| Opportunistic
| Verified (ca cert key : option string).

Definition tlsOf (s : SslSetting) : TlsConfig :=
  match s with
  | SslFalse => Disabled
  | SslOptions o =>
      if rejectUnauthorized o then Verified (ca o) (cert o) (key o)
      else Opportunistic
  end.

(** The port invariant of [ConnectionSpec]. *)
Definition portInRange (n : num) : Prop :=
  match n with
  | Num z => (1 <= z <= 65535)%Z
  | _ => False
  end.

(** The first provider that supplies a value. *)
Fixpoint firstDefined {A : Type} (providers : list (option A)) : option A :=
  match providers with
  | [] => None
  | Some v :: _ => Some v
  | None :: more => firstDefined more
  end.

(** What a connection string supplies for an optional field: nothing when
    the string is not given or does not hold the field. *)
Definition supplied (f : PostgresConnectionOptions -> option string)
  (cs : option string) : option string :=
  if truthy cs then
    match parseConnectionString (nullish cs "") with
    | Ok p => f p
    | Throw _ => None
    end
  else None.

(** The database name as the specification resolves it, each layer on its
    own: the flag, the connection-string flag, DATABASE_URL, PGDATABASE. *)
Definition claimedDatabase (env : Env) (flags : ConnectionFlags)
  : option string :=
  firstDefined [flag_database flags;
                supplied database (flag_connection_string flags);
                supplied database (DATABASE_URL env);
                PGDATABASE env].

(** The layer below the per-field flags: the connection-string flag when
    given, else DATABASE_URL when given, else the PG* variables with the
    defaults.  A connection string stands for all of its fields at once. *)
Definition topLayer (env : Env) (flags : ConnectionFlags)
  : result PostgresConnectionOptions :=
  if truthy (flag_connection_string flags)
  then parseConnectionString (nullish (flag_connection_string flags) "")
  else if truthy (DATABASE_URL env)
  then parseConnectionString (nullish (DATABASE_URL env) "")
  else Ok (Index.envOptions env).

(** [s] does not hold the character [c]. *)
Fixpoint lacks (c : ascii) (s : string) : bool :=
  match s with
  | "" => true
  | String d t => negb (Ascii.eqb c d) && lacks c t
  end.

(** [host || 'localhost'] *)
Definition orLocalhost (s : string) : string :=
  if nonEmpty s then s else "localhost".

(** The configuration error of a tunnel without key and password. *)
Definition credentialMessage : string :=
  "--ssh-key or --ssh-password is required when using --ssh-host".

(** The file a path names was read into [content]; without a path there
    is no content. *)
Definition attached (readFile : string -> result string)
  (path content : option string) : Prop :=
  if truthy path
  then exists text, readFile (nullish path "") = Ok text /\ content = Some text
  else content = None.

End Spec.

(** ** Sample worlds and inputs *)

Module Samples.
Import JS Types Client.

(** A file system where every file can be read. *)
Definition sampleFiles (path : string) : result string :=
  Ok ("contents of " ++ path).

(** A shell that refuses every command. *)
Definition noShell (cmd : string) : result string :=
  Throw ("cannot run " ++ cmd).

Definition emptyEnv : Env :=
  {| PGHOST := None; PGPORT := None; PGUSER := None;
     PGPASSWORD := None; PGDATABASE := None; DATABASE_URL := None |}.

(** No flag on the command line. *)
Definition noValues : CliValues :=
  {| flag_host := None; flag_port := None; flag_user := None;
     flag_password := None; flag_password_file := None;
     flag_password_cmd := None; flag_database := None;
     flag_connection_string := None; flag_ssl := false;
     flag_ssl_ca := None; flag_ssl_cert := None; flag_ssl_key := None;
     flag_ssh_host := None; flag_ssh_port := None; flag_ssh_user := None;
     flag_ssh_key := None; flag_ssh_password := None;
     flag_structure_only := false |}.

(** [--ssl-cert client.crt] alone. *)
Definition certOnly : ConnectionFlags :=
  {| flag_host := None; flag_port := None; flag_user := None;
     flag_password := None; flag_password_file := None;
     flag_password_cmd := None; flag_database := None;
     flag_connection_string := None; flag_ssl := false;
     flag_ssl_ca := None; flag_ssl_cert := Some "client.crt";
     flag_ssl_key := None;
     flag_ssh_host := None; flag_ssh_port := None; flag_ssh_user := None;
     flag_ssh_key := None; flag_ssh_password := None;
     flag_structure_only := false |}.

(** [--ssh-host], [--ssh-user] and the two tunnel credentials, or
    neither. *)
Definition tunnelValues (credentials : bool) : CliValues :=
  {| flag_host := Some "db-internal"; flag_port := None; flag_user := None;
     flag_password := None; flag_password_file := None;
     flag_password_cmd := None; flag_database := Some "mydb";
     flag_connection_string := None; flag_ssl := false;
     flag_ssl_ca := None; flag_ssl_cert := None; flag_ssl_key := None;
     flag_ssh_host := Some "bastion.example.com"; flag_ssh_port := None;
     flag_ssh_user := Some "deploy";
     flag_ssh_key := if credentials then Some "id_rsa" else None;
     flag_ssh_password := if credentials then Some "secret" else None;
     flag_structure_only := false |}.

(** [--connection-string cs] and, possibly, [--user]. *)
Definition stringValues (cs : string) (user_ : option string) : CliValues :=
  {| flag_host := None; flag_port := None; flag_user := user_;
     flag_password := None; flag_password_file := None;
     flag_password_cmd := None; flag_database := None;
     flag_connection_string := Some cs; flag_ssl := false;
     flag_ssl_ca := None; flag_ssl_cert := None; flag_ssl_key := None;
     flag_ssh_host := None; flag_ssh_port := None; flag_ssh_user := None;
     flag_ssh_key := None; flag_ssh_password := None;
     flag_structure_only := false |}.

(** [--user alice] with a connection string for the other fields, and
    what [main] settles for it. *)
Definition aliceValues : CliValues :=
  stringValues "postgresql://admin:p@ss@db.example.com:5433/mydb"
               (Some "alice").

Definition aliceStartup : Index.Startup :=
  {| Index.connOptions :=
       {| host := "db.example.com"; port := Num 5433; user := Some "alice";
          password := Some "p@ss"; database := Some "mydb";
          ssl := Some SslFalse |};
     Index.tunnelRequest := None;
     Index.structureOnly := false |}.

(** An environment with the PG* variables set. *)
Definition pgEnv : Env :=
  {| PGHOST := Some "envhost"; PGPORT := Some "6543";
     PGUSER := Some "envuser"; PGPASSWORD := None;
     PGDATABASE := Some "envdb"; DATABASE_URL := None |}.

(** An environment with PGPASSWORD set. *)
Definition passwordEnv : Env :=
  {| PGHOST := None; PGPORT := None; PGUSER := None;
     PGPASSWORD := Some "envpw"; PGDATABASE := None; DATABASE_URL := None |}.

Definition sampleRow (n : Z) : Row := [("id", SqlInt n)].

(** An engine that answers every statement with three rows. *)
Definition threeRows (statement : string) : result RowList :=
  Ok {| fetched := [sampleRow 1; sampleRow 2; sampleRow 3];
        fetchedColumns := None |}.

End Samples.

(** ** tools/query.ts: the handler of [execute-query] *)

Module Handlers.
Import JS Types Utils Client.

(** What a tool handler returns: the text of its one content item, and
    whether [isError] is set. *)
Record ToolResponse : Type := mkToolResponse {
  text : string;
  isError : bool
}.

Definition formatToolError (message : string) : ToolResponse :=
  {| text := message; isError := true |}.

Definition readOnlyMessage : string :=
  "Only read-only queries are allowed (SELECT, WITH, EXPLAIN, SHOW, VALUES).".

Section Handler.

(** [sql.unsafe], and [JSON.stringify(data, null, 2)] on a query result. *)
Variable unsafe : string -> result RowList.
Variable stringify : QueryResult -> string.

Definition formatToolResult (data : QueryResult) : ToolResponse :=
  {| text := stringify data; isError := false |}.

(** The handler registered for [execute-query]. *)
Definition executeQueryTool (query : string) (limit : Z) : ToolResponse :=
  if negb (isReadOnlyQuery query) then formatToolError readOnlyMessage
  else
    match executeQuery unsafe query limit with
    | Ok result_ => formatToolResult result_
    | Throw msg => formatToolError ("Query failed: " ++ msg)
    end.

End Handler.

End Handlers.

(** ** server.ts *)

Module Server.

(** The names [registerSchemaTools] registers, in order. *)
Definition schemaTools : list string :=
  ["list-schemas"; "list-tables"; "describe-table"].

(** The names [registerQueryTools] registers. *)
Definition queryTools : list string := ["execute-query"].

(** [registerAllTools]: the names of the tools of a server. *)
Definition registerAllTools (structureOnly : bool) : list string :=
  schemaTools ++ (if negb structureOnly then queryTools else []).

End Server.

(** ** setup.ts: the connection test of the setup page *)

Module Setup.
Import JS Types Utils.

(** The fields of the request body that [testConnection] reads before it
    opens a tunnel.  The page sends each of them as the text of an input
    field, left out when the field is empty, and [ssl] as a boolean; the
    code casts them to strings. *)
Record TestParams : Type := mkTestParams {
  p_host : option string;
  p_port : option string;
  p_user : option string;
  p_password : option string;
  p_database : option string;
  p_connectionString : option string;
  p_ssl : bool;
  p_sslCa : option string;
  p_sslCert : option string;
  p_sslKey : option string
}.

(** [String(x)] for a string or [undefined]. *)
Definition toString (x : option string) : string :=
  match x with Some s => s | None => "undefined" end.

(** [n || d] for numbers: NaN and 0 are falsy. *)
Definition numberOr (n : num) (d : Z) : num :=
  match n with
  | NaN => Num d
  | Num z => if (z =? 0)%Z then Num d else Num z
  | Infinity negative => Infinity negative
  end.

(** [(x as string) || undefined] *)
Definition orUndefinedOpt (x : option string) : option string :=
  if truthy x then x else None.

Section Files.

Variable readFile : string -> result string.

Definition readIfGiven (path : option string) : result (option string) :=
  if truthy path then
    do text <- readFile (nullish path "");
    Ok (Some text)
  else Ok None.

(** [testConnection] up to the tunnel: the connection options it builds
    from the request. *)
Definition testOptions (params : TestParams)
  : result PostgresConnectionOptions :=
  let conn :=
    {| host := if truthy (p_host params) then nullish (p_host params) ""
               else "localhost";
       port := numberOr (parseInt (toString (p_port params))) 5432;
       user := orUndefinedOpt (p_user params);
       password := orUndefinedOpt (p_password params);
       database := orUndefinedOpt (p_database params);
       ssl := None |} in
  do conn1 <-
    (if truthy (p_connectionString params) then
       do parsed <- parseConnectionString
                      (nullish (p_connectionString params) "");
       Ok {| host := host parsed; port := port parsed; user := user parsed;
             password := password parsed; database := database parsed;
             ssl := ssl conn |}
     else Ok conn);
  if p_ssl params || truthy (p_sslCa params) || truthy (p_sslCert params)
     || truthy (p_sslKey params)
  then
    do ca_ <- readIfGiven (p_sslCa params);
    do cert_ <- readIfGiven (p_sslCert params);
    do key_ <- readIfGiven (p_sslKey params);
    Ok {| host := host conn1; port := port conn1; user := user conn1;
          password := password conn1; database := database conn1;
          ssl := Some (SslOptions
                         {| rejectUnauthorized := truthy (p_sslCa params);
                            ca := ca_; cert := cert_; key := key_ |}) |}
  else Ok conn1.

End Files.

End Setup.

(** ** Notions for the properties of the text functions *)

Module Text.
Import JS Spec.

(** How often [c] stands in [s]. *)
Fixpoint occurrences (c : ascii) (s : string) : nat :=
  match s with
  | "" => 0
  | String d t => (if Ascii.eqb c d then 1 else 0) + occurrences c t
  end.

(** [s] holds none of the characters that open a comment, a dollar quote,
    a literal or a quoted identifier. *)
Definition plain (s : string) : bool :=
  lacks "/" s && lacks "-" s && lacks "$" s && lacks "'" s && lacks "034" s.

(** The two errors of [parseConnectionString]. *)
Definition noSchemeMessage : string :=
  "Invalid connection string — expected postgresql:// prefix".

Definition noAtMessage : string :=
  "Invalid connection string — missing @ between credentials and host".

(** [s] starts with two hexadecimal digits. *)
Definition startsWithHexPair (s : string) : bool :=
  match s with
  | String h1 (String h2 _) =>
      match hexValue h1, hexValue h2 with
      | Some _, Some _ => true
      | _, _ => false
      end
  | _ => false
  end.

(** [sub] stands somewhere in [s]. *)
Definition contains (sub s : string) : Prop :=
  exists a b, s = a ++ sub ++ b.

End Text.

(** ** More sample inputs *)

Module MoreSamples.
Import JS Types.

(** [--port abc] alone, and what [main] settles for it. *)
Definition portValues : CliValues :=
  {| flag_host := None; flag_port := Some "abc"; flag_user := None;
     flag_password := None; flag_password_file := None;
     flag_password_cmd := None; flag_database := None;
     flag_connection_string := None; flag_ssl := false;
     flag_ssl_ca := None; flag_ssl_cert := None; flag_ssl_key := None;
     flag_ssh_host := None; flag_ssh_port := None; flag_ssh_user := None;
     flag_ssh_key := None; flag_ssh_password := None;
     flag_structure_only := false |}.

Definition portStartup : Index.Startup :=
  {| Index.connOptions :=
       {| host := "localhost"; port := NaN; user := None; password := None;
          database := None; ssl := Some SslFalse |};
     Index.tunnelRequest := None;
     Index.structureOnly := false |}.

(** What [main] settles for the tunnel flags with both credentials. *)
Definition tunnelStartup : Index.Startup :=
  {| Index.connOptions :=
       {| host := "db-internal"; port := Num 5432; user := None;
          password := None; database := Some "mydb"; ssl := Some SslFalse |};
     Index.tunnelRequest :=
       Some {| sshHost := "bastion.example.com"; sshPort := Num 22;
               sshUser := "deploy"; sshKey := Some "id_rsa";
               sshPassword := Some "secret"; targetHost := "db-internal";
               targetPort := Num 5432 |};
     Index.structureOnly := false |}.

(** An environment whose DATABASE_URL has no scheme. *)
Definition badUrlEnv : Env :=
  {| PGHOST := None; PGPORT := None; PGUSER := None; PGPASSWORD := None;
     PGDATABASE := None; DATABASE_URL := Some "localhost:5432/mydb" |}.

(** A printer of query results that prints the number of rows. *)
Definition printCount (r : QueryResult) : string :=
  JS.numberToString (Z.of_nat (rowCount r)).

(** A request of the setup page with a client certificate and no CA, with
    or without a connection string. *)
Definition certParams (cs : option string) : Setup.TestParams :=
  {| Setup.p_host := Some "db.example.com"; Setup.p_port := Some "0";
     Setup.p_user := Some "admin"; Setup.p_password := None;
     Setup.p_database := Some "mydb"; Setup.p_connectionString := cs;
     Setup.p_ssl := false; Setup.p_sslCa := None;
     Setup.p_sslCert := Some "client.crt"; Setup.p_sslKey := None |}.

End MoreSamples.

(** ** The stripping as it is described *)

Module Intended.
Import JS Utils Spec.

(** A second definition of the stripped copy, from the words of the
    docstring of [stripNonCode] and of the specification: block comments,
    line comments, dollar-quoted bodies, string literals and quoted
    identifiers are blanked, so that only the code of the statement is left.
    The statement is read once from left to right; a construct is blanked
    where it opens, and what stands inside it opens no other construct. *)
Definition opensAt (s : string) : option nat :=
  match blockComment s with
  | Some n => Some n
  | None =>
      match lineComment s with
      | Some n => Some n
      | None =>
          match dollarQuoted s with
          | Some n => Some n
          | None =>
              match quoted "'" s with
              | Some n => Some n
              | None => quoted "034" s
              end
          end
      end
  end.

Definition blankNonCode (query : string) : string :=
  replaceAll opensAt 0 query.

(** A statement that drops a table between two literals that hold the
    marks of a block comment. *)
Definition dropBetweenLiterals : string :=
  "SELECT '/*'; DROP TABLE users; SELECT '*/'".

(** A statement that drops a table after a literal that holds the mark of
    a line comment. *)
Definition dropAfterLiteral : string :=
  "SELECT '--'; DROP TABLE users".

(** A statement that drops a table on a line of its own, between two line
    comments that hold the marks of a block comment. *)
Definition dropBetweenLineComments : string :=
  "-- /*" ++ LF ++ "DROP TABLE t; -- */" ++ LF ++ "SELECT 1".

(** A statement whose literal holds a keyword and the mark of a line
    comment. *)
Definition keywordAndDashesInLiteral : string :=
  "SELECT 'DROP -- x'".

End Intended.

(** * Properties *)

Import JS Types Utils Spec.

(** ** Characters *)

Ltac by_cases_on_char c :=
  destruct c as [[] [] [] [] [] [] [] []]; vm_compute; congruence.

Lemma isSpace_upperChar (c : ascii) : isSpace (upperChar c) = isSpace c.
Proof. by_cases_on_char c. Qed.

Lemma space_is_not_word (c : ascii) :
  isSpace c = true -> isWordChar c = false.
Proof. by_cases_on_char c. Qed.

(** ** Strings *)

Lemma append_assoc (a b c : string) : (a ++ b) ++ c = a ++ (b ++ c).
Proof. induction a as [|x a IH]; simpl; [reflexivity | now rewrite IH]. Qed.

Lemma append_empty_r (a : string) : a ++ "" = a.
Proof. induction a as [|x a IH]; simpl; [reflexivity | now rewrite IH]. Qed.

Lemma trimStart_upper (s : string) :
  trimStart (toUpperCase s) = toUpperCase (trimStart s).
Proof.
  induction s as [|c s IH]; simpl; [reflexivity|].
  rewrite isSpace_upperChar. destruct (isSpace c); [exact IH | reflexivity].
Qed.

Lemma trimEnd_upper (s : string) :
  trimEnd (toUpperCase s) = toUpperCase (trimEnd s).
Proof.
  induction s as [|c s IH]; simpl; [reflexivity|].
  rewrite IH, isSpace_upperChar.
  destruct (trimEnd s); simpl; [destruct (isSpace c) |]; reflexivity.
Qed.

Lemma trim_upper (s : string) : trim (toUpperCase s) = toUpperCase (trim s).
Proof. unfold trim. now rewrite trimStart_upper, trimEnd_upper. Qed.

(** ** Whole words *)

Lemma lastOf_app (prev : option ascii) (a b : string) :
  lastOf prev (a ++ b) = lastOf (lastOf prev a) b.
Proof. revert prev; induction a as [|x a IH]; intros; simpl; auto. Qed.

Lemma matchPrefix_app (w rest : string) : matchPrefix w (w ++ rest) = Some rest.
Proof.
  induction w as [|c w IH]; simpl; [reflexivity|].
  now rewrite Ascii.eqb_refl.
Qed.

Lemma lastOf_word (prev : option ascii) (w : string) :
  isKeywordShaped w = true -> isWord (lastOf prev w) = true.
Proof.
  unfold isKeywordShaped. destruct w as [|c w]; simpl; [discriminate|].
  revert c. induction w as [|d w IH]; intros c H; simpl in *.
  - now rewrite andb_true_r in H.
  - apply andb_prop in H as [_ H]. now apply IH.
Qed.

Lemma head_word (w rest : string) :
  isKeywordShaped w = true -> isWord (head (w ++ rest)) = true.
Proof.
  unfold isKeywordShaped. destruct w as [|c w]; simpl; [discriminate|].
  intros H. now apply andb_prop in H as [H _].
Qed.

(** An occurrence as a whole word is found by the search. *)
Lemma searchWord_found (w pre post : string) (prev : option ascii) :
  isKeywordShaped w = true ->
  isWord (lastOf prev pre) = false ->
  isWord (head post) = false ->
  searchWord w prev (pre ++ w ++ post) = true.
Proof.
  intros Hw. revert prev. induction pre as [|c pre IH]; intros prev Hpre Hpost.
  - simpl in *. destruct (w ++ post) eqn:E.
    + destruct w; simpl in *; discriminate.
    + rewrite <- E. unfold searchWord.
      assert (Hm : matchWordHere w prev (w ++ post) = true).
      { unfold matchWordHere, atBoundary.
        rewrite matchPrefix_app, Hpre, Hpost, head_word, lastOf_word by assumption.
        reflexivity. }
      rewrite E in *. simpl. fold searchWord. now rewrite Hm.
  - simpl. rewrite (IH (Some c)) by assumption. apply orb_true_r.
Qed.

Lemma testWord_complete (w s : string) :
  isKeywordShaped w = true -> occursAsWord w s -> testWord w s = true.
Proof.
  intros Hw (pre & post & -> & Hpre & Hpost).
  now apply searchWord_found.
Qed.

Lemma matchPrefix_sound (w s rest : string) :
  matchPrefix w s = Some rest -> s = w ++ rest.
Proof.
  revert s; induction w as [|c w IH]; intros s H; simpl in *.
  - now injection H as ->.
  - destruct s as [|d s]; [discriminate|].
    destruct (Ascii.eqb_spec c d) as [->|]; [|discriminate].
    now rewrite (IH _ H).
Qed.

(** What the search finds is an occurrence as a whole word. *)
Lemma searchWord_sound (w s : string) (prev : option ascii) :
  isKeywordShaped w = true ->
  searchWord w prev s = true ->
  exists pre post,
    s = pre ++ w ++ post /\
    isWord (lastOf prev pre) = false /\
    isWord (head post) = false.
Proof.
  intros Hw. revert prev. induction s as [|c s IH]; intros prev H.
  - simpl in H. rewrite orb_false_r in H.
    unfold matchWordHere in H. apply andb_prop in H as [_ H].
    destruct w; [discriminate Hw | discriminate H].
  - simpl in H. apply orb_prop in H as [H|H].
    + unfold matchWordHere in H. apply andb_prop in H as [Hb H].
      destruct (matchPrefix w (String c s)) as [rest|] eqn:E; [|discriminate].
      apply matchPrefix_sound in E. exists "", rest.
      unfold atBoundary in *. rewrite E in Hb.
      rewrite head_word in Hb by assumption.
      rewrite lastOf_word in H by assumption.
      simpl. repeat split; [exact E | |].
      * now destruct (isWord prev).
      * now destruct (isWord (head rest)).
    + destruct (IH _ H) as (pre & post & -> & Hpre & Hpost).
      now exists (String c pre), post.
Qed.

Lemma testWord_spec (w s : string) :
  isKeywordShaped w = true -> (testWord w s = true <-> occursAsWord w s).
Proof.
  intros Hw. split.
  - intros H. exact (searchWord_sound _ _ _ Hw H).
  - now apply testWord_complete.
Qed.

(** ** Trimming *)

Lemma trimStart_app (pre r : string) :
  isWord (head r) = true -> trimStart (pre ++ r) = trimStart pre ++ r.
Proof.
  intros Hr. induction pre as [|c pre IH]; simpl.
  - destruct r as [|d r]; [discriminate Hr|]. simpl in *.
    destruct (isSpace d) eqn:E; [|reflexivity].
    apply space_is_not_word in E. congruence.
  - destruct (isSpace c); [exact IH | reflexivity].
Qed.

Lemma lastOf_trimStart (pre : string) :
  isWord (lastOf None pre) = false ->
  isWord (lastOf None (trimStart pre)) = false.
Proof.
  assert (G : forall prev, isWord prev = false ->
            isWord (lastOf prev pre) = false ->
            isWord (lastOf None (trimStart pre)) = false).
  { induction pre as [|c pre IH]; intros prev Hp H; simpl in *.
    - reflexivity.
    - destruct (isSpace c) eqn:E; [|exact H].
      apply (IH (Some c)); [now apply space_is_not_word | exact H]. }
  now apply (G None).
Qed.

Lemma trimEnd_app (x y : string) :
  isWord (lastOf None x) = true -> trimEnd (x ++ y) = x ++ trimEnd y.
Proof.
  induction x as [|c x IH]; intros H; [discriminate H|].
  simpl. destruct x as [|d x].
  - simpl in *. destruct (trimEnd y); [|reflexivity].
    destruct (isSpace c) eqn:E; [|reflexivity].
    apply space_is_not_word in E. congruence.
  - rewrite IH by exact H. reflexivity.
Qed.

Lemma head_trimEnd (s : string) :
  isWord (head s) = false -> isWord (head (trimEnd s)) = false.
Proof.
  destruct s as [|c s]; simpl; [reflexivity|].
  intros H. destruct (trimEnd s); [destruct (isSpace c)|]; simpl; auto.
Qed.

Lemma occursAsWord_trim (w s : string) :
  isKeywordShaped w = true -> occursAsWord w s -> occursAsWord w (trim s).
Proof.
  intros Hw (pre & post & -> & Hpre & Hpost).
  exists (trimStart pre), (trimEnd post). split; [|split].
  - unfold trim. rewrite trimStart_app by now apply head_word.
    rewrite <- !append_assoc. rewrite trimEnd_app; [reflexivity|].
    rewrite lastOf_app. now apply lastOf_word.
  - now apply lastOf_trimStart.
  - now apply head_trimEnd.
Qed.

(** ** The classifier *)

Lemma findKeyword_In (kw upper : string) (keywords : list string) :
  In kw keywords -> testWord kw upper = true ->
  findKeyword keywords upper = true.
Proof.
  induction keywords as [|k ks IH]; intros Hin Ht; [destruct Hin|].
  simpl. destruct Hin as [->|Hin]; [now rewrite Ht|].
  destruct (testWord k upper); [reflexivity | now apply IH].
Qed.

Lemma WRITE_KEYWORDS_shape (kw : string) :
  In kw WRITE_KEYWORDS -> isKeywordShaped kw = true /\ toUpperCase kw = kw.
Proof.
  intros H.
  assert (F : forallb (fun k => isKeywordShaped k && String.eqb (toUpperCase k) k)
                      WRITE_KEYWORDS = true) by (vm_compute; reflexivity).
  rewrite forallb_forall in F. specialize (F _ H).
  apply andb_prop in F as [F1 F2]. now apply String.eqb_eq in F2.
Qed.

(** C1.  The statement that deletes inside a WITH clause is rejected.  The
    general statement fails on the code for a keyword that stands after or
    between literals that hold comment marks: with the literals blanked,
    DROP is left as a whole word of the statement; but the passes of
    [stripNonCode] run one after another over the whole text, so the comment
    passes take the marks inside the literals for comments, the DROP is
    blanked with them, and the statement is read-only. *)
Theorem C1_keyword_hidden_by_marks_in_literals :
  isReadOnlyQuery "WITH x AS (DELETE FROM t RETURNING 1) SELECT * FROM x"
  = false
  /\ In "DROP" WRITE_KEYWORDS
  /\ Intended.blankNonCode Intended.dropBetweenLiterals
     = "SELECT  ; DROP TABLE users; SELECT  "
  /\ occursAsWord "DROP" (Intended.blankNonCode Intended.dropBetweenLiterals)
  /\ stripNonCode Intended.dropBetweenLiterals = "SELECT  "
  /\ isReadOnlyQuery Intended.dropBetweenLiterals = true
  /\ Intended.blankNonCode Intended.dropAfterLiteral
     = "SELECT  ; DROP TABLE users"
  /\ occursAsWord "DROP" (Intended.blankNonCode Intended.dropAfterLiteral)
  /\ stripNonCode Intended.dropAfterLiteral = "SELECT ' "
  /\ isReadOnlyQuery Intended.dropAfterLiteral = true.
Proof.
  assert (E1 : Intended.blankNonCode Intended.dropBetweenLiterals
               = "SELECT  ; DROP TABLE users; SELECT  ")
    by (vm_compute; reflexivity).
  assert (E2 : Intended.blankNonCode Intended.dropAfterLiteral
               = "SELECT  ; DROP TABLE users")
    by (vm_compute; reflexivity).
  split; [vm_compute; reflexivity|].
  split; [vm_compute; tauto|].
  split; [exact E1|].
  split.
  { rewrite E1. exists "SELECT  ; ", " TABLE users; SELECT  ".
    split; [reflexivity|]. split; reflexivity. }
  split; [vm_compute; reflexivity|].
  split; [vm_compute; reflexivity|].
  split; [exact E2|].
  split.
  { rewrite E2. exists "SELECT  ; ", " TABLE users".
    split; [reflexivity|]. split; reflexivity. }
  split; vm_compute; reflexivity.
Qed.

(** ** The first token *)

Lemma splitSpaces_first (s : string) :
  fst (splitSpaces false s) = takeToken s.
Proof.
  induction s as [|c s IH]; simpl; [reflexivity|].
  destruct (isSpace c); [reflexivity|].
  destruct (splitSpaces false s) as [f fs]. simpl in *. now rewrite IH.
Qed.

Lemma splitWhitespace_first (s : string) :
  hd "" (splitWhitespace s) = takeToken s.
Proof.
  unfold splitWhitespace. rewrite <- splitSpaces_first.
  now destruct (splitSpaces false s).
Qed.

Lemma takeToken_trimEnd (s : string) : takeToken (trimEnd s) = takeToken s.
Proof.
  induction s as [|c s IH]; simpl; [reflexivity|].
  destruct (trimEnd s) as [|d t'] eqn:E.
  - simpl in IH. destruct (isSpace c) eqn:Ec; simpl; rewrite ?Ec; congruence.
  - cbn [takeToken] in *. destruct (isSpace c); congruence.
Qed.

Lemma takeToken_upper (s : string) :
  takeToken (toUpperCase s) = toUpperCase (takeToken s).
Proof.
  induction s as [|c s IH]; simpl; [reflexivity|].
  rewrite isSpace_upperChar. destruct (isSpace c); simpl; congruence.
Qed.

(** The first word the classifier looks at is the first token of the
    stripped text, in upper case. *)
Lemma firstWord_is_firstToken (s : string) :
  hd "" (splitWhitespace (toUpperCase (trim s))) = toUpperCase (firstToken s).
Proof.
  rewrite splitWhitespace_first, takeToken_upper. unfold trim, firstToken.
  now rewrite takeToken_trimEnd.
Qed.

Lemma includes_In (arr : list string) (x : string) :
  includes arr x = true <-> In x arr.
Proof.
  unfold includes. rewrite existsb_exists. split.
  - intros (y & Hy & E). apply String.eqb_eq in E. now subst.
  - intros H. exists x. split; [exact H | apply String.eqb_refl].
Qed.

Lemma allSpace_trimStart (s : string) : allSpace s = true -> trimStart s = "".
Proof.
  induction s as [|c s IH]; simpl; [reflexivity|].
  destruct (isSpace c); [exact IH | discriminate].
Qed.

Lemma allSpace_trim (s : string) : allSpace s = true -> trim s = "".
Proof. intros H. unfold trim. now rewrite allSpace_trimStart. Qed.

(** C2.  The empty and the blank statement are rejected.  The gate on the
    first token fails on the code for a statement whose first line comment
    holds the opening mark of a block comment: with the comments blanked the
    first token is DROP, which is not in the allow-set; but the
    block-comment pass of [stripNonCode] runs before the line-comment pass
    and takes the text from the mark inside the first line comment to the
    closing mark inside the second, the DROP included, so the first token
    the code reads is SELECT and the statement is read-only. *)
Theorem C2_first_token_hidden_by_marks_in_comments :
  isReadOnlyQuery "" = false
  /\ isReadOnlyQuery "   " = false
  /\ Intended.blankNonCode Intended.dropBetweenLineComments
     = " " ++ LF ++ "DROP TABLE t;  " ++ LF ++ "SELECT 1"
  /\ toUpperCase
       (firstToken (Intended.blankNonCode Intended.dropBetweenLineComments))
     = "DROP"
  /\ ~ In "DROP" ALLOWED_PREFIXES
  /\ stripNonCode Intended.dropBetweenLineComments
     = " " ++ LF ++ "SELECT 1"
  /\ isReadOnlyQuery Intended.dropBetweenLineComments = true.
Proof.
  split; [vm_compute; reflexivity|].
  split; [vm_compute; reflexivity|].
  split; [vm_compute; reflexivity|].
  split; [vm_compute; reflexivity|].
  split.
  { vm_compute. intros H.
    repeat (destruct H as [H|H]; [discriminate H|]). exact H. }
  split; vm_compute; reflexivity.
Qed.

(** C3.  The two statements that the specification names are read-only.
    The general statement fails on the code for a literal that holds a
    keyword and the mark of a line comment: with the literal blanked, no
    keyword of the block-set is left and the first token is SELECT; but the
    line-comment pass of [stripNonCode] runs before the literal pass and
    blanks the closing quote, so the literal is not blanked, the keyword
    inside it is scanned, and the statement is rejected. *)
Theorem C3_keyword_in_literal_with_dashes :
  isReadOnlyQuery "SELECT 'DROP TABLE users'" = true
  /\ isReadOnlyQuery ("-- DROP TABLE users" ++ LF ++ "SELECT 1") = true
  /\ Intended.blankNonCode Intended.keywordAndDashesInLiteral = "SELECT  "
  /\ In (toUpperCase
           (firstToken
              (Intended.blankNonCode Intended.keywordAndDashesInLiteral)))
        ALLOWED_PREFIXES
  /\ (forall kw,
        In kw WRITE_KEYWORDS ->
        ~ occursAsWord kw
            (toUpperCase
               (Intended.blankNonCode Intended.keywordAndDashesInLiteral)))
  /\ stripNonCode Intended.keywordAndDashesInLiteral = "SELECT 'DROP  "
  /\ isReadOnlyQuery Intended.keywordAndDashesInLiteral = false.
Proof.
  assert (E : Intended.blankNonCode Intended.keywordAndDashesInLiteral
              = "SELECT  ") by (vm_compute; reflexivity).
  split; [vm_compute; reflexivity|].
  split; [vm_compute; reflexivity|].
  split; [exact E|].
  split; [rewrite E; vm_compute; tauto|].
  split.
  { intros kw Hin Hocc. rewrite E in Hocc.
    destruct (WRITE_KEYWORDS_shape _ Hin) as [Hshape _].
    apply (testWord_complete _ _ Hshape) in Hocc.
    assert (F : forallb (fun k => negb (testWord k (toUpperCase "SELECT  ")))
                        WRITE_KEYWORDS = true) by (vm_compute; reflexivity).
    rewrite forallb_forall in F. specialize (F _ Hin).
    rewrite Hocc in F. discriminate F. }
  split; vm_compute; reflexivity.
Qed.

(** C10.  The allow-set holds the five statement kinds the tool description
    names and TABLE besides, which the description does not name; a TABLE
    statement without a block-set keyword is read-only. *)
Theorem C10_allow_set_larger_than_advertised :
  isReadOnlyQuery "TABLE users" = true
  /\ (forall k, In k QueryTools.ADVERTISED -> In k ALLOWED_PREFIXES)
  /\ (forall k, In k QueryTools.ADVERTISED ->
                testWord k QueryTools.description = true)
  /\ In "TABLE" ALLOWED_PREFIXES
  /\ ~ In "TABLE" QueryTools.ADVERTISED
  /\ testWord "TABLE" QueryTools.description = false
  /\ List.length QueryTools.ADVERTISED < List.length ALLOWED_PREFIXES.
Proof.
  split; [vm_compute; reflexivity|].
  split; [intros k H; vm_compute in H |- *; tauto|].
  split.
  { intros k H. vm_compute in H.
    repeat (destruct H as [<-|H]; [vm_compute; reflexivity|]). destruct H. }
  split; [vm_compute; tauto|].
  split.
  { vm_compute. intros H.
    repeat (destruct H as [H|H]; [discriminate H|]). exact H. }
  split; [vm_compute; reflexivity | vm_compute; lia].
Qed.

Lemma C10_witness :
  In "SHOW" QueryTools.ADVERTISED /\ In "SHOW" ALLOWED_PREFIXES.
Proof.
  assert (H : In "SHOW" QueryTools.ADVERTISED) by (vm_compute; tauto).
  split; [exact H|].
  exact (proj1 (proj2 C10_allow_set_larger_than_advertised) "SHOW" H).
Defined.

(** ** The executor *)

Section Executor.
Import Client.

Variable unsafe : string -> result RowList.

Lemma executeQuery_throws (query : string) (limit : Z) (msg : string) :
  fetchRows unsafe (cleanQuery query) (effectiveLimitOf limit + 1) = Throw msg ->
  executeQuery unsafe query limit = Throw msg.
Proof. intros H. unfold executeQuery. now rewrite H. Qed.

Lemma arraySlice0_firstn {A : Type} (arr : list A) (e : Z) :
  (0 <= e)%Z -> arraySlice0 arr e = firstn (Z.to_nat e) arr.
Proof.
  intros H. unfold arraySlice0.
  destruct (Z.ltb_spec e 0); [lia | reflexivity].
Qed.

End Executor.

(** C4.  For a limit that is not negative, [executeQuery] works with the
    effective limit [min(limit, 5000)]: when the fetch returns, it returns a
    result whose [truncated] flag holds exactly when more rows than the
    effective limit were fetched, whose rows are then the first
    effective-limit rows (exactly that many) and otherwise all the fetched
    rows, and whose [rowCount] is the number of its rows. *)
Theorem C4_execute_bounded_and_truncated :
  forall (unsafe : string -> result Client.RowList)
         (query : string) (limit : Z) (raw : Client.RowList),
    (0 <= limit)%Z ->
    Client.fetchRows unsafe (Client.cleanQuery query) (Z.min limit 5000 + 1)
      = Ok raw ->
    exists res,
      Client.executeQuery unsafe query limit = Ok res
      /\ Client.effectiveLimitOf limit = Z.min limit 5000
      /\ (Client.effectiveLimitOf limit <= 5000)%Z
      /\ (truncated res = true <->
          (Client.effectiveLimitOf limit
           < Z.of_nat (List.length (Client.fetched raw)))%Z)
      /\ (truncated res = true ->
          rows res = firstn (Z.to_nat (Client.effectiveLimitOf limit))
                            (Client.fetched raw)
          /\ Z.of_nat (List.length (rows res)) = Client.effectiveLimitOf limit)
      /\ (truncated res = false -> rows res = Client.fetched raw)
      /\ rowCount res = List.length (rows res).
Proof.
  intros unsafe query limit raw Hlimit Hfetch.
  unfold Client.executeQuery. unfold Client.effectiveLimitOf at 1 2.
  rewrite Hfetch. cbn [bind]. eexists. split; [reflexivity|].
  cbn [truncated rows rowCount]. unfold Client.effectiveLimitOf.
  set (e := Z.min limit 5000). set (n := List.length (Client.fetched raw)).
  assert (He : (0 <= e)%Z) by (subst e; lia).
  split; [reflexivity|]. split; [subst e; lia|].
  split; [rewrite Z.gtb_ltb; apply Z.ltb_lt|].
  split; [|split; [intros ->; reflexivity | reflexivity]].
  intros Ht. rewrite Ht, arraySlice0_firstn by exact He.
  split; [reflexivity|].
  rewrite Z.gtb_ltb in Ht. apply Z.ltb_lt in Ht.
  rewrite length_firstn. fold n. lia.
Qed.

Lemma C4_witness :
  exists res,
    Client.executeQuery Samples.threeRows "SELECT id FROM t;" 2 = Ok res
    /\ truncated res = true
    /\ rows res = [Samples.sampleRow 1; Samples.sampleRow 2]
    /\ rowCount res = 2.
Proof.
  destruct (C4_execute_bounded_and_truncated Samples.threeRows
              "SELECT id FROM t;" 2
              {| Client.fetched := [Samples.sampleRow 1; Samples.sampleRow 2;
                                    Samples.sampleRow 3];
                 Client.fetchedColumns := None |})
    as (res & Hres & _ & _ & Ht & Hrows & _ & Hcount).
  - lia.
  - reflexivity.
  - exists res. split; [exact Hres|].
    assert (T : truncated res = true) by (apply Ht; vm_compute; reflexivity).
    destruct (Hrows T) as [Hr _].
    split; [exact T|]. split; [exact Hr|]. rewrite Hcount, Hr. reflexivity.
Defined.

(** ** TLS settings *)

Section Tls.
Import Index.

Variable readFile : string -> result string.

Lemma readIfGiven_attached (path content : option string) :
  attached readFile path content ->
  readIfGiven readFile path = Ok content.
Proof.
  unfold attached, readIfGiven. destruct (truthy path).
  - intros (text & -> & ->). reflexivity.
  - intros ->. reflexivity.
Qed.

Lemma readIfGiven_Ok (path content : option string) :
  readIfGiven readFile path = Ok content ->
  attached readFile path content.
Proof.
  unfold attached, readIfGiven. destruct (truthy path).
  - destruct (readFile (nullish path "")) as [text|msg]; simpl; [|discriminate].
    intros H. injection H as <-. now exists text.
  - intros H. now injection H as <-.
Qed.

Lemma buildSslConfig_off (flags : ConnectionFlags) :
  flag_ssl flags = false ->
  truthy (flag_ssl_ca flags) || truthy (flag_ssl_cert flags)
  || truthy (flag_ssl_key flags) = false ->
  buildSslConfig readFile flags = Ok SslFalse.
Proof.
  intros Hssl Hany. apply orb_false_elim in Hany as [Hany Hkey].
  apply orb_false_elim in Hany as [Hca Hcert].
  unfold buildSslConfig. now rewrite Hssl, Hca, Hcert, Hkey.
Qed.

Lemma buildSslConfig_enabled (flags : ConnectionFlags) :
  flag_ssl flags = true ->
  truthy (flag_ssl_ca flags) || truthy (flag_ssl_cert flags)
  || truthy (flag_ssl_key flags) = false ->
  buildSslConfig readFile flags
  = Ok (SslOptions {| rejectUnauthorized := false; ca := None;
                      cert := None; key := None |}).
Proof.
  intros Hssl Hany. apply orb_false_elim in Hany as [Hany Hkey].
  apply orb_false_elim in Hany as [Hca Hcert].
  unfold buildSslConfig. now rewrite Hssl, Hca, Hcert, Hkey.
Qed.

(** With a path, the configuration is the verifying one, made of what the
    three reads give. *)
Lemma buildSslConfig_paths (flags : ConnectionFlags) :
  truthy (flag_ssl_ca flags) || truthy (flag_ssl_cert flags)
  || truthy (flag_ssl_key flags) = true ->
  buildSslConfig readFile flags
  = (do ca_ <- readIfGiven readFile (flag_ssl_ca flags);
     do cert_ <- readIfGiven readFile (flag_ssl_cert flags);
     do key_ <- readIfGiven readFile (flag_ssl_key flags);
     Ok (SslOptions {| rejectUnauthorized := true;
                       ca := ca_; cert := cert_; key := key_ |})).
Proof.
  intros Hany. unfold buildSslConfig.
  destruct (truthy (flag_ssl_ca flags)), (truthy (flag_ssl_cert flags)),
    (truthy (flag_ssl_key flags)); try discriminate Hany;
    cbn [negb andb]; rewrite ?andb_false_r; reflexivity.
Qed.

End Tls.

(** C5.  The derivation fails on the code for a certificate path without a
    CA path: the specification gives the opportunistic setting there (the
    peer is not verified), and so does the connection test of the setup page
    on the same inputs, but [buildSslConfig] gives the verifying one, with
    the certificate attached. *)
Theorem C5_certificate_without_ca :
  flag_ssl Samples.certOnly = false
  /\ truthy (flag_ssl_ca Samples.certOnly) = false
  /\ truthy (flag_ssl_cert Samples.certOnly) = true
  /\ (exists s,
        Index.buildSslConfig Samples.sampleFiles Samples.certOnly = Ok s
        /\ s = SslOptions {| rejectUnauthorized := true; ca := None;
                             cert := Some "contents of client.crt";
                             key := None |}
        /\ tlsOf s = Verified None (Some "contents of client.crt") None
        /\ tlsOf s <> Opportunistic)
  /\ (exists conn s,
        Setup.testOptions Samples.sampleFiles (MoreSamples.certParams None)
        = Ok conn
        /\ ssl conn = Some s
        /\ s = SslOptions {| rejectUnauthorized := false; ca := None;
                             cert := Some "contents of client.crt";
                             key := None |}
        /\ tlsOf s = Opportunistic).
Proof.
  split; [reflexivity|]. split; [reflexivity|]. split; [reflexivity|].
  split.
  - eexists. split; [vm_compute; reflexivity|].
    split; [reflexivity|]. split; [reflexivity | discriminate].
  - eexists. eexists. split; [vm_compute; reflexivity|].
    split; [reflexivity|]. split; reflexivity.
Qed.

(** ** The tunnel *)

Section TunnelGate.
Import Index.

Lemma tunnelOptions_no_credential (flags : ConnectionFlags)
  (conn : PostgresConnectionOptions) :
  truthy (flag_ssh_host flags) = true ->
  truthy (flag_ssh_key flags) = false ->
  truthy (flag_ssh_password flags) = false ->
  exists msg, tunnelOptions flags conn = Throw msg
              /\ (truthy (flag_ssh_user flags) = true ->
                  msg = credentialMessage).
Proof.
  intros Hhost Hkey Hpw. unfold tunnelOptions. rewrite Hhost, Hkey, Hpw.
  destruct (truthy (flag_ssh_user flags)); cbn [negb andb];
    eexists; (split; [reflexivity|]); [reflexivity | discriminate].
Qed.

Lemma tunnelOptions_credential (flags : ConnectionFlags)
  (conn : PostgresConnectionOptions) :
  truthy (flag_ssh_host flags) = true ->
  truthy (flag_ssh_user flags) = true ->
  truthy (flag_ssh_key flags) = true \/ truthy (flag_ssh_password flags) = true ->
  tunnelOptions flags conn
  = Ok (Some {| sshHost := nullish (flag_ssh_host flags) "";
                sshPort := nullish (flag_ssh_port flags) (Num 22);
                sshUser := nullish (flag_ssh_user flags) "";
                sshKey := flag_ssh_key flags;
                sshPassword := flag_ssh_password flags;
                targetHost := host conn;
                targetPort := port conn |}).
Proof.
  intros Hhost Huser Hcred. unfold tunnelOptions. rewrite Hhost, Huser.
  destruct Hcred as [-> | ->]; cbn [negb andb]; rewrite ?andb_false_r;
    reflexivity.
Qed.

Variable readFile : string -> result string.
Variable execSync : string -> result string.
Variable env : Env.

(** [main] reaches the network only through [tunnelOptions]. *)
Lemma main_Ok_tunnel (values : CliValues) (st : Startup) :
  main readFile execSync env values = Ok st ->
  tunnelOptions (parseFlags values) (connOptions st) = Ok (tunnelRequest st).
Proof.
  unfold main.
  destruct (baseOptions env (parseFlags values)) as [base|]; [|discriminate].
  destruct (resolvePassword readFile execSync env (parseFlags values))
    as [pw|]; [|discriminate].
  destruct (buildSslConfig readFile (parseFlags values)) as [s|];
    [|discriminate].
  cbn [bind].
  destruct (tunnelOptions (parseFlags values) _) as [t|] eqn:E; [|discriminate].
  cbn [bind]. intros H. injection H as <-. exact E.
Qed.

End TunnelGate.

(** C9, as the code has it.  With a tunnel host, a tunnel without a key
    path and without a password is refused before [createTunnel] is called:
    [main] stops with an error, the configuration error when the tunnel
    user is given.  With the user and at least one of the two, the tunnel
    is asked for with the key path and the password as given, both when
    both are given. *)
Theorem C9_tunnel_needs_a_credential :
  forall (readFile execSync : string -> result string) (env : Env)
         (values : CliValues),
    let flags := Index.parseFlags values in
    truthy (flag_ssh_host flags) = true ->
    (truthy (flag_ssh_key flags) = false ->
     truthy (flag_ssh_password flags) = false ->
     (exists msg, Index.main readFile execSync env values = Throw msg)
     /\ (forall conn,
           truthy (flag_ssh_user flags) = true ->
           Index.tunnelOptions flags conn = Throw credentialMessage))
    /\ (truthy (flag_ssh_user flags) = true ->
        truthy (flag_ssh_key flags) = true
        \/ truthy (flag_ssh_password flags) = true ->
        forall conn, exists t,
          Index.tunnelOptions flags conn = Ok (Some t)
          /\ sshKey t = flag_ssh_key flags
          /\ sshPassword t = flag_ssh_password flags
          /\ targetHost t = host conn
          /\ targetPort t = port conn).
Proof.
  intros readFile execSync env values flags Hhost. split.
  - intros Hkey Hpw. split.
    + destruct (Index.main readFile execSync env values) as [st|msg] eqn:E;
        [|now exists msg].
      apply main_Ok_tunnel in E. fold flags in E.
      destruct (tunnelOptions_no_credential flags (Index.connOptions st)
                  Hhost Hkey Hpw) as (msg & Hm & _).
      congruence.
    + intros conn Huser.
      destruct (tunnelOptions_no_credential flags conn Hhost Hkey Hpw)
        as (msg & Hm & Hmsg).
      now rewrite Hm, (Hmsg Huser).
  - intros Huser Hcred conn. eexists.
    split; [now apply tunnelOptions_credential|].
    cbn [sshKey sshPassword targetHost targetPort]. repeat split.
Qed.

Lemma C9_witness :
  (exists msg,
     Index.main Samples.sampleFiles Samples.noShell Samples.emptyEnv
       (Samples.tunnelValues false) = Throw msg)
  /\ Index.main Samples.sampleFiles Samples.noShell Samples.emptyEnv
       (Samples.tunnelValues false) = Throw credentialMessage.
Proof.
  split; [|vm_compute; reflexivity].
  apply (proj1 (C9_tunnel_needs_a_credential Samples.sampleFiles
                  Samples.noShell Samples.emptyEnv
                  (Samples.tunnelValues false) eq_refl));
    reflexivity.
Defined.

(** C9, as stated, fails where it has both credentials refused: with a key
    path and a password, [main] asks for the tunnel, and [createTunnel]
    hands the key and the password to the session. *)
Lemma C9_counterexample :
  exists st t cfg,
    Index.main Samples.sampleFiles Samples.noShell Samples.emptyEnv
      (Samples.tunnelValues true) = Ok st
    /\ Index.tunnelRequest st = Some t
    /\ sshKey t = Some "id_rsa"
    /\ sshPassword t = Some "secret"
    /\ Tunnel.connectConfig Samples.sampleFiles t = Ok cfg
    /\ Tunnel.privateKey cfg = Some "contents of id_rsa"
    /\ Tunnel.ssh_password cfg = Some "secret".
Proof.
  eexists. eexists. eexists.
  split; [vm_compute; reflexivity|].
  split; [vm_compute; reflexivity|].
  split; [reflexivity|]. split; [reflexivity|].
  split; [vm_compute; reflexivity|].
  split; reflexivity.
Qed.

(** ** Searching and slicing *)

Lemma prefix_empty (s : string) : prefix "" s = true.
Proof. now destruct s. Qed.

Lemma prefix_char (c d : ascii) (t : string) :
  prefix (String c "") (String d t) = Ascii.eqb c d.
Proof.
  simpl. destruct (ascii_dec c d) as [->|n].
  - now rewrite prefix_empty, Ascii.eqb_refl.
  - symmetry. now apply Ascii.eqb_neq.
Qed.

Lemma lacks_app (c : ascii) (a b : string) :
  lacks c (a ++ b) = lacks c a && lacks c b.
Proof.
  induction a as [|x a IH]; simpl; [reflexivity|].
  now rewrite IH, andb_assoc.
Qed.

Lemma indexOf_char_none (c : ascii) (s : string) :
  lacks c s = true -> indexOf s (String c "") = None.
Proof.
  induction s as [|d s IH]; intros H; [reflexivity|].
  cbn [lacks] in H. apply andb_prop in H as [Hd Hs].
  cbn [indexOf]. rewrite prefix_char.
  apply negb_true_iff in Hd. rewrite Hd. now rewrite (IH Hs).
Qed.

Lemma indexOf_char_app (c : ascii) (a b : string) :
  lacks c a = true ->
  indexOf (a ++ String c b) (String c "") = Some (String.length a).
Proof.
  induction a as [|d a IH]; intros H.
  - cbn [append indexOf]. now rewrite prefix_char, Ascii.eqb_refl.
  - cbn [lacks] in H. apply andb_prop in H as [Hd Ha].
    cbn [append indexOf]. rewrite prefix_char.
    apply negb_true_iff in Hd. rewrite Hd. now rewrite (IH Ha).
Qed.

Lemma lastIndexOf_char_none (c : ascii) (s : string) :
  lacks c s = true -> lastIndexOf s (String c "") = None.
Proof.
  induction s as [|d s IH]; intros H; [reflexivity|].
  cbn [lacks] in H. apply andb_prop in H as [Hd Hs].
  cbn [lastIndexOf]. rewrite (IH Hs), prefix_char.
  apply negb_true_iff in Hd. now rewrite Hd.
Qed.

Lemma lastIndexOf_char_app (c : ascii) (a b : string) :
  lacks c b = true ->
  lastIndexOf (a ++ String c b) (String c "") = Some (String.length a).
Proof.
  intros Hb. induction a as [|d a IH].
  - cbn [append lastIndexOf]. rewrite (lastIndexOf_char_none _ _ Hb).
    now rewrite prefix_char, Ascii.eqb_refl.
  - cbn [append lastIndexOf]. now rewrite IH.
Qed.

Lemma indexOf_scheme (scheme rest : string) :
  lacks ":" scheme = true ->
  indexOf (scheme ++ "://" ++ rest) "://" = Some (String.length scheme).
Proof.
  change ("://" ++ rest) with (String ":" (String "/" (String "/" rest))).
  induction scheme as [|d scheme IH]; intros H.
  - cbn. now rewrite prefix_empty.
  - cbn [lacks] in H. apply andb_prop in H as [Hd Hs].
    apply negb_true_iff, Ascii.eqb_neq in Hd.
    cbn [append indexOf prefix].
    destruct (ascii_dec ":" d) as [E|_]; [contradiction|].
    now rewrite (IH Hs).
Qed.

Lemma take_app (a b : string) : take (String.length a) (a ++ b) = a.
Proof. induction a as [|x a IH]; simpl; [now destruct b | now rewrite IH]. Qed.

Lemma drop_app (a b : string) (k : nat) :
  drop (String.length a + k) (a ++ b) = drop k b.
Proof. induction a as [|x a IH]; simpl; auto. Qed.

Lemma slice_before (a b : string) :
  slice (a ++ b) 0 (Some (String.length a)) = a.
Proof. unfold slice. rewrite Nat.sub_0_r. cbn [drop]. apply take_app. Qed.

Lemma slice_after (a b : string) (k : nat) :
  slice (a ++ b) (String.length a + k) None = drop k b.
Proof. unfold slice. apply drop_app. Qed.

Lemma decodeFrom_plain (s : string) :
  lacks "%" s = true -> decodeURIComponent s = Some s.
Proof.
  unfold decodeURIComponent. induction s as [|c s IH]; intros H; [reflexivity|].
  cbn [lacks] in H. apply andb_prop in H as [Hc Hs].
  apply negb_true_iff in Hc. rewrite Ascii.eqb_sym in Hc.
  cbn [decodeFrom]. rewrite Hc, (IH Hs). reflexivity.
Qed.

Lemma decodeComponent_plain (s : string) :
  lacks "%" s = true -> decodeComponent s = s.
Proof. intros H. unfold decodeComponent. now rewrite decodeFrom_plain. Qed.

(** ** The connection-string parser *)

(** The text after the scheme and the two sides of the last [@]. *)
Lemma parse_sides (scheme userInfo hostPart : string) :
  lacks ":" scheme = true ->
  lacks "@" hostPart = true ->
  let cs := scheme ++ "://" ++ userInfo ++ "@" ++ hostPart in
  let rest := userInfo ++ "@" ++ hostPart in
  indexOf cs "://" = Some (String.length scheme)
  /\ slice cs (String.length scheme + 3) None = rest
  /\ lastIndexOf rest "@" = Some (String.length userInfo)
  /\ slice rest 0 (Some (String.length userInfo)) = userInfo
  /\ slice rest (String.length userInfo + 1) None = hostPart.
Proof.
  intros Hs Hh cs rest. subst cs rest.
  split; [now apply indexOf_scheme|].
  split; [now rewrite slice_after|].
  split; [now apply lastIndexOf_char_app|].
  split; [apply slice_before | now rewrite slice_after].
Qed.

(** The host and the port come from the text between the last [@] and the
    first [/] after it. *)
Lemma parse_host_port (scheme userInfo hostPort path : string) :
  lacks ":" scheme = true ->
  lacks "@" hostPort = true ->
  lacks "/" hostPort = true ->
  lacks "@" path = true ->
  path = "" \/ (exists d, path = String "/" d) ->
  exists p,
    parseConnectionString (scheme ++ "://" ++ userInfo ++ "@" ++ hostPort ++ path)
    = Ok p
    /\ host p = orLocalhost match lastIndexOf hostPort ":" with
                            | Some i => take i hostPort
                            | None => hostPort
                            end
    /\ port p = match lastIndexOf hostPort ":" with
                | Some i =>
                    if isNaN (parseInt (drop (i + 1) hostPort)) then Num 5432
                    else parseInt (drop (i + 1) hostPort)
                | None => Num 5432
                end.
Proof.
  intros Hs Hhp Hslash Hpath Hshape.
  assert (Hat : lacks "@" (hostPort ++ path) = true)
    by now rewrite lacks_app, Hhp, Hpath.
  destruct (parse_sides scheme userInfo (hostPort ++ path) Hs Hat)
    as (H1 & H2 & H3 & H4 & H5).
  unfold parseConnectionString. rewrite H1, H2, H3, H4, H5.
  assert (Hhost : match indexOf (hostPort ++ path) "/" with
                  | Some i => slice (hostPort ++ path) 0 (Some i)
                  | None => hostPort ++ path
                  end = hostPort).
  { destruct Hshape as [->|[d ->]].
    - rewrite append_empty_r. now rewrite (indexOf_char_none "/").
    - rewrite (indexOf_char_app "/") by assumption. apply slice_before. }
  rewrite Hhost. eexists. split; [reflexivity|].
  cbn [host port]. unfold orLocalhost, slice.
  destruct (lastIndexOf hostPort ":") as [i|]; [|split; reflexivity].
  rewrite Nat.sub_0_r. cbn [drop]. split; reflexivity.
Qed.

(** Once a digit is read, [readDigits] gives a number. *)
Lemma readDigits_started (radix : Z) (s : string) (a : Z) :
  readDigits radix (Some a) s <> None.
Proof.
  revert a. induction s as [|c s IH]; intros a; cbn [readDigits];
    [discriminate|].
  destruct (digitIn radix c); [apply IH | discriminate].
Qed.

Lemma toNumber_not_NaN (z : Z) : isNaN (toNumber z) = false.
Proof.
  unfold toNumber. destruct (Z.abs z <? 2 ^ 53)%Z; [reflexivity|].
  cbv zeta. now destruct (2 ^ 1024 <=? _)%Z.
Qed.

(** A text that starts with a digit from 1 to 9 is read as a number. *)
Lemma parseInt_leading_digit (d : ascii) (rest : string) :
  between 49 57 d = true -> isNaN (parseInt (String d rest)) = false.
Proof.
  intros Hd. unfold parseInt.
  assert (Ht : trimStart (String d rest) = String d rest).
  { cbn [trimStart]. replace (isSpace d) with false; [reflexivity|].
    revert Hd. destruct d as [[] [] [] [] [] [] [] []]; vm_compute; congruence. }
  rewrite Ht.
  assert (Hm : exists v, readMagnitude (String d rest) = Some v
                         /\ (String d rest = String "-" rest -> False)
                         /\ (String d rest = String "+" rest -> False)).
  { assert (Hv : exists v, digitIn 10 d = Some v
                           /\ Ascii.eqb d "0" = false
                           /\ Ascii.eqb d "-" = false
                           /\ Ascii.eqb d "+" = false).
    { revert Hd. destruct d as [[] [] [] [] [] [] [] []]; vm_compute;
        try congruence; intros _; eexists; repeat split. }
    destruct Hv as (v & Hv & H0 & Hminus & Hplus).
    assert (Hr : readMagnitude (String d rest) = readDigits 10 None (String d rest)).
    { unfold readMagnitude. revert H0.
      destruct d as [[] [] [] [] [] [] [] []]; try reflexivity;
        vm_compute; congruence. }
    rewrite Hr. cbn [readDigits]. rewrite Hv.
    destruct (readDigits 10 _ rest) as [r|] eqn:Er;
      [|exfalso; exact (readDigits_started _ _ _ Er)].
    exists r. split; [reflexivity|].
    split; intros E; injection E as ->; discriminate. }
  destruct Hm as (v & Hm & Hminus & Hplus).
  assert (Hsign : (let (sign, body) :=
                     match String d rest with
                     | String "-" t => ((-1)%Z, t)
                     | String "+" t => (1%Z, t)
                     | t => (1%Z, t)
                     end in
                   match readMagnitude body with
                   | Some v => toNumber (sign * v)
                   | None => NaN
                   end) = toNumber (1 * v)).
  { revert Hm Hminus Hplus.
    destruct d as [[] [] [] [] [] [] [] []]; intros Hm Hminus Hplus;
      try (exfalso; apply Hminus; reflexivity);
      try (exfalso; apply Hplus; reflexivity);
      cbv beta iota; rewrite Hm; reflexivity. }
  rewrite Hsign. apply toNumber_not_NaN.
Qed.

(** Every accepted connection string has a host that is not empty and a
    port that is not NaN. *)
Lemma parse_host_port_defined (cs : string) (p : PostgresConnectionOptions) :
  parseConnectionString cs = Ok p ->
  host p <> "" /\ isNaN (port p) = false.
Proof.
  unfold parseConnectionString.
  destruct (indexOf cs "://") as [schemeEnd|]; [|discriminate].
  destruct (lastIndexOf _ "@") as [lastAt|]; [|discriminate].
  intros H. injection H as <-. cbn [host port]. split.
  - match goal with |- (if nonEmpty ?h then _ else _) <> _ =>
      destruct h; cbn; discriminate end.
  - match goal with |- isNaN (if isNaN ?n then _ else _) = _ =>
      destruct (isNaN n) eqn:E; [reflexivity | exact E] end.
Qed.

(** C8, as the code has it.  An accepted connection string gives a host
    that is not empty and a port that is not NaN; nothing keeps the port
    within 1..65535.  Without a colon after the host the port is 5432 and
    the host is the text itself, or localhost when that is empty.  With a
    colon the host is the text before the last one, or localhost, and the
    port is 5432 when [parseInt] gives NaN for the text after it, and
    otherwise the number [parseInt] gives: that of the leading digits alone,
    so a text that starts with a digit from 1 to 9 never gives 5432 by
    default, and an infinity for a digit string beyond the doubles. *)
Theorem C8_host_and_port_defaults :
  (forall cs p,
      parseConnectionString cs = Ok p ->
      host p <> "" /\ isNaN (port p) = false)
  /\ (forall scheme userInfo hostPort path,
        lacks ":" scheme = true ->
        lacks "@" hostPort = true ->
        lacks "/" hostPort = true ->
        lacks "@" path = true ->
        path = "" \/ (exists d, path = String "/" d) ->
        exists p,
          parseConnectionString
            (scheme ++ "://" ++ userInfo ++ "@" ++ hostPort ++ path) = Ok p
          /\ (lacks ":" hostPort = true ->
              host p = orLocalhost hostPort /\ port p = Num 5432)
          /\ (forall h t,
                hostPort = h ++ ":" ++ t ->
                lacks ":" t = true ->
                host p = orLocalhost h
                /\ (parseInt t = NaN -> port p = Num 5432)
                /\ (parseInt t <> NaN -> port p = parseInt t)
                /\ (forall d rest,
                      t = String d rest -> between 49 57 d = true ->
                      port p = parseInt t /\ port p <> NaN)))
  /\ parseInt "80abc" = Num 80
  /\ parseInt "abc" = NaN
  /\ parseInt "0x" = NaN
  /\ parseInt "9007199254740993" = Num 9007199254740992.
Proof.
  split; [exact parse_host_port_defined|].
  split; [|repeat split; vm_compute; reflexivity].
  intros scheme userInfo hostPort path Hs Hat Hslash Hpath Hshape.
  destruct (parse_host_port scheme userInfo hostPort path Hs Hat Hslash
              Hpath Hshape) as (p & Hp & Hhost & Hport).
  exists p. split; [exact Hp|]. split.
  - intros Hcolon. rewrite Hhost, Hport.
    now rewrite (lastIndexOf_char_none ":" _ Hcolon).
  - intros h t -> Ht. rewrite Hhost, Hport.
    change (h ++ ":" ++ t) with (h ++ String ":" t).
    rewrite (lastIndexOf_char_app ":" h t Ht).
    rewrite take_app, drop_app. cbn [drop].
    split; [reflexivity|].
    split; [intros ->; reflexivity|].
    assert (Hnum : parseInt t <> NaN ->
                   (if isNaN (parseInt t) then Num 5432 else parseInt t)
                   = parseInt t).
    { intros Hn. destruct (parseInt t); [contradiction | reflexivity..]. }
    split; [exact Hnum|].
    intros d rest -> Hd.
    pose proof (parseInt_leading_digit d rest Hd) as Hn.
    assert (Hne : parseInt (String d rest) <> NaN)
      by (intros E; rewrite E in Hn; discriminate Hn).
    rewrite (Hnum Hne). split; [reflexivity | exact Hne].
Qed.

Lemma C8_witness :
  exists p,
    parseConnectionString "postgresql://user@:abc/db" = Ok p
    /\ host p = "localhost" /\ port p = Num 5432.
Proof.
  destruct (proj1 (proj2 C8_host_and_port_defaults)
              "postgresql" "user" ":abc" "/db"
              eq_refl eq_refl eq_refl eq_refl
              (or_intror (ex_intro _ "db" eq_refl)))
    as (p & Hp & _ & Hcolon).
  exists p. split; [exact Hp|].
  destruct (Hcolon "" "abc" eq_refl eq_refl) as (Hh & Hnan & _).
  split; [exact Hh | exact (Hnan eq_refl)].
Defined.

(** C8, as stated, fails: the parser accepts a port above 65535, and port
    0. *)
Lemma C8_counterexample :
  exists p q,
    parseConnectionString "postgresql://user@host:99999/db" = Ok p
    /\ port p = Num 99999
    /\ ~ portInRange (port p)
    /\ parseConnectionString "postgresql://user@host:0/db" = Ok q
    /\ ~ portInRange (port q).
Proof.
  eexists. eexists.
  split; [vm_compute; reflexivity|].
  split; [reflexivity|].
  split; [cbn; lia|].
  split; [vm_compute; reflexivity | cbn; lia].
Qed.

(** The user and the password come from the text before the last [@], cut
    at its first colon. *)
Lemma parse_credentials (scheme user_ pw hostPart : string) :
  lacks ":" scheme = true ->
  lacks ":" user_ = true ->
  lacks "%" user_ = true ->
  lacks "%" pw = true ->
  lacks "@" hostPart = true ->
  exists p,
    parseConnectionString
      (scheme ++ "://" ++ (user_ ++ ":" ++ pw) ++ "@" ++ hostPart) = Ok p
    /\ user p = orUndefined user_
    /\ password p = orUndefined pw.
Proof.
  intros Hs Hu Hud Hpd Hat.
  destruct (parse_sides scheme (user_ ++ ":" ++ pw) hostPart Hs Hat)
    as (H1 & H2 & H3 & H4 & H5).
  unfold parseConnectionString. rewrite H1, H2, H3, H4, H5.
  change (user_ ++ ":" ++ pw) with (user_ ++ String ":" pw).
  rewrite (indexOf_char_app ":" user_ pw Hu).
  rewrite slice_before, slice_after. cbn [drop].
  rewrite (decodeComponent_plain _ Hud), (decodeComponent_plain _ Hpd).
  eexists. split; [reflexivity|]. split; reflexivity.
Qed.

(** C7.  The parser cuts at the last [@]: the two connection strings of
    the specification parse as stated, and whatever the password holds
    besides a percent sign, [@] included, it is returned as written. *)
Theorem C7_password_with_at_sign :
  parseConnectionString "postgresql://admin:p@ss@db.example.com:5432/mydb"
  = Ok {| host := "db.example.com"; port := Num 5432; user := Some "admin";
          password := Some "p@ss"; database := Some "mydb"; ssl := None |}
  /\ (exists p,
        parseConnectionString "postgresql://user@host/db" = Ok p
        /\ password p = None /\ port p = Num 5432
        /\ user p = Some "user" /\ host p = "host" /\ database p = Some "db")
  /\ (forall scheme user_ pw hostPart,
        lacks ":" scheme = true ->
        lacks ":" user_ = true ->
        lacks "%" user_ = true ->
        lacks "%" pw = true ->
        lacks "@" hostPart = true ->
        nonEmpty pw = true ->
        exists p,
          parseConnectionString
            (scheme ++ "://" ++ (user_ ++ ":" ++ pw) ++ "@" ++ hostPart) = Ok p
          /\ password p = Some pw
          /\ user p = orUndefined user_).
Proof.
  split; [vm_compute; reflexivity|].
  split.
  { eexists. split; [vm_compute; reflexivity|]. cbn. repeat split. }
  intros scheme user_ pw hostPart Hs Hu Hud Hpd Hat Hne.
  destruct (parse_credentials scheme user_ pw hostPart Hs Hu Hud Hpd Hat)
    as (p & Hp & Huser & Hpw).
  exists p. split; [exact Hp|]. split; [|exact Huser].
  rewrite Hpw. unfold orUndefined. now rewrite Hne.
Qed.

Lemma C7_witness :
  exists p,
    parseConnectionString
      ("postgres" ++ "://" ++ ("admin" ++ ":" ++ "p@s:s@") ++ "@" ++ "db:5/x")
    = Ok p
    /\ password p = Some "p@s:s@"
    /\ user p = Some "admin".
Proof.
  exact (proj2 (proj2 C7_password_with_at_sign)
           "postgres" "admin" "p@s:s@" "db:5/x"
           eq_refl eq_refl eq_refl eq_refl eq_refl eq_refl).
Defined.

(** ** The connection options of [main] *)

Section Resolution.
Import Index.

Variable readFile : string -> result string.
Variable execSync : string -> result string.
Variable env : Env.

Lemma parse_ssl_absent (cs : string) (p : PostgresConnectionOptions) :
  parseConnectionString cs = Ok p -> ssl p = None.
Proof.
  unfold parseConnectionString.
  destruct (indexOf cs "://"); [|discriminate].
  destruct (lastIndexOf _ "@"); [|discriminate].
  intros H. now injection H as <-.
Qed.

Lemma spread_parsed (base p : PostgresConnectionOptions) :
  ssl base = None -> ssl p = None -> spread base p = p.
Proof. destruct p; unfold spread; simpl; intros -> ->; reflexivity. Qed.

Lemma overlay_Ok (base b : PostgresConnectionOptions) (cs : option string) :
  ssl base = None ->
  overlay base cs = Ok b ->
  ssl b = None
  /\ (if truthy cs then parseConnectionString (nullish cs "") = Ok b
      else b = base).
Proof.
  intros Hssl. unfold overlay. destruct (truthy cs).
  - destruct (parseConnectionString (nullish cs "")) as [p|] eqn:E;
      [|discriminate].
    cbn [bind]. intros H. injection H as <-.
    pose proof (parse_ssl_absent _ _ E) as Hp.
    rewrite (spread_parsed _ _ Hssl Hp). now split.
  - intros H. injection H as <-. now split.
Qed.

(** When the two connection strings parse, [base] is the top layer. *)
Lemma baseOptions_topLayer (flags : ConnectionFlags)
  (base : PostgresConnectionOptions) :
  baseOptions env flags = Ok base -> topLayer env flags = Ok base.
Proof.
  unfold baseOptions, topLayer.
  destruct (overlay (envOptions env) (DATABASE_URL env)) as [b1|] eqn:E1;
    [|discriminate].
  cbn [bind]. intros E2.
  destruct (overlay_Ok (envOptions env) b1 (DATABASE_URL env) eq_refl E1)
    as [Hssl1 H1].
  destruct (overlay_Ok _ _ _ Hssl1 E2) as [_ H2].
  destruct (truthy (flag_connection_string flags)); [exact H2|].
  subst base. destruct (truthy (DATABASE_URL env)); [exact H1 | now subst].
Qed.

Lemma main_Ok_conn (values : CliValues) (st : Startup) :
  main readFile execSync env values = Ok st ->
  exists base pw s,
    baseOptions env (parseFlags values) = Ok base
    /\ resolvePassword readFile execSync env (parseFlags values) = Ok pw
    /\ connOptions st = withSsl (mergeOptions (parseFlags values) base pw) s.
Proof.
  unfold main.
  destruct (baseOptions env (parseFlags values)) as [base|]; [|discriminate].
  destruct (resolvePassword readFile execSync env (parseFlags values))
    as [pw|]; [|discriminate].
  destruct (buildSslConfig readFile (parseFlags values)) as [s|];
    [|discriminate].
  cbn [bind].
  destruct (tunnelOptions (parseFlags values) _) as [t|]; [|discriminate].
  cbn [bind]. intros H. injection H as <-.
  exists base, pw, s. repeat split.
Qed.

End Resolution.

(** C6, as the code has it.  Host, port, user and database are each the
    per-field flag when given and otherwise the field of the top layer,
    which is the connection-string flag when given, else DATABASE_URL when
    given, else the PG* variables with the defaults localhost and 5432; a
    connection string stands for all of its fields, so a field it does not
    hold is not taken from a lower layer.  The password is the password flag
    when given; without a password flag, password file and password command,
    and with PGPASSWORD unset, it is the password of the top layer. *)
Theorem C6_layered_resolution :
  forall (readFile execSync : string -> result string) (env : Env)
         (values : CliValues) (st : Index.Startup),
    Index.main readFile execSync env values = Ok st ->
    let flags := Index.parseFlags values in
    let conn := Index.connOptions st in
    exists layer,
      topLayer env flags = Ok layer
      /\ host conn = nullish (flag_host flags) (host layer)
      /\ port conn = nullish (flag_port flags) (port layer)
      /\ user conn = nullishOpt (flag_user flags) (user layer)
      /\ database conn = nullishOpt (flag_database flags) (database layer)
      /\ (truthy (flag_password flags) = true ->
          password conn = flag_password flags)
      /\ (truthy (flag_password flags) = false ->
          truthy (flag_password_file flags) = false ->
          truthy (flag_password_cmd flags) = false ->
          PGPASSWORD env = None ->
          password conn = password layer).
Proof.
  intros readFile execSync env values st Hmain flags conn.
  destruct (main_Ok_conn _ _ _ _ _ Hmain) as (base & pw & s & Hb & Hpw & Hc).
  exists base. subst conn. rewrite Hc. fold flags in Hb, Hpw |- *.
  split; [now apply baseOptions_topLayer|].
  cbn [Index.withSsl Index.mergeOptions host port user database password].
  repeat (split; [reflexivity|]).
  unfold Index.resolvePassword in Hpw. split.
  - intros Hf. rewrite Hf in Hpw. injection Hpw as <-.
    unfold flags in *. cbn [Index.parseFlags flag_password] in *.
    destruct (flag_password values); [reflexivity | discriminate Hf].
  - intros Hf Hfile Hcmd Henv. rewrite Hf, Hfile, Hcmd, Henv in Hpw.
    now injection Hpw as <-.
Qed.

Lemma C6_witness :
  Index.main Samples.sampleFiles Samples.noShell Samples.pgEnv
    Samples.aliceValues = Ok Samples.aliceStartup
  /\ exists layer,
       topLayer Samples.pgEnv (Index.parseFlags Samples.aliceValues) = Ok layer
       /\ host (Index.connOptions Samples.aliceStartup)
          = nullish (flag_host (Index.parseFlags Samples.aliceValues))
                    (host layer)
       /\ port (Index.connOptions Samples.aliceStartup)
          = nullish (flag_port (Index.parseFlags Samples.aliceValues))
                    (port layer)
       /\ user (Index.connOptions Samples.aliceStartup)
          = nullishOpt (flag_user (Index.parseFlags Samples.aliceValues))
                       (user layer)
       /\ database (Index.connOptions Samples.aliceStartup)
          = nullishOpt (flag_database (Index.parseFlags Samples.aliceValues))
                       (database layer)
       /\ (truthy (flag_password (Index.parseFlags Samples.aliceValues)) = true ->
           password (Index.connOptions Samples.aliceStartup)
           = flag_password (Index.parseFlags Samples.aliceValues))
       /\ (truthy (flag_password (Index.parseFlags Samples.aliceValues)) = false ->
           truthy (flag_password_file (Index.parseFlags Samples.aliceValues))
           = false ->
           truthy (flag_password_cmd (Index.parseFlags Samples.aliceValues))
           = false ->
           PGPASSWORD Samples.pgEnv = None ->
           password (Index.connOptions Samples.aliceStartup) = password layer).
Proof.
  assert (H : Index.main Samples.sampleFiles Samples.noShell Samples.pgEnv
                Samples.aliceValues = Ok Samples.aliceStartup)
    by (vm_compute; reflexivity).
  split; [exact H|].
  exact (C6_layered_resolution _ _ _ _ _ H).
Defined.

(** C6, as stated, fails: a connection string without a database name
    leaves the database undefined although PGDATABASE is set, where
    resolving each field on its own gives the PGDATABASE value. *)
Lemma C6_counterexample :
  exists st,
    Index.main Samples.sampleFiles Samples.noShell Samples.pgEnv
      (Samples.stringValues "postgresql://u:p@h" None) = Ok st
    /\ database (Index.connOptions st) = None
    /\ PGDATABASE Samples.pgEnv = Some "envdb"
    /\ claimedDatabase Samples.pgEnv
         (Index.parseFlags (Samples.stringValues "postgresql://u:p@h" None))
       = Some "envdb"
    /\ database (Index.connOptions st)
       <> claimedDatabase Samples.pgEnv
            (Index.parseFlags (Samples.stringValues "postgresql://u:p@h" None)).
Proof.
  eexists. split; [vm_compute; reflexivity|].
  split; [reflexivity|]. split; [reflexivity|].
  split; [vm_compute; reflexivity|].
  vm_compute. discriminate.
Qed.

(** PGPASSWORD is read by [resolvePassword], before the connection strings
    are looked at: with PGPASSWORD set, the password of a connection string
    is not used. *)
Lemma pgpassword_precedes_connection_string :
  exists st,
    Index.main Samples.sampleFiles Samples.noShell Samples.passwordEnv
      (Samples.stringValues "postgresql://u:cspw@h/db" None) = Ok st
    /\ password (Index.connOptions st) = Some "envpw".
Proof. eexists. split; [vm_compute; reflexivity | reflexivity]. Qed.

(** * Further properties *)

Import Text.

(** ** The classifier, characterised *)

Lemma allSpace_lastOf (a : string) (prev : option ascii) :
  allSpace a = true -> isWord prev = false -> isWord (lastOf prev a) = false.
Proof.
  revert prev. induction a as [|c a IH]; intros prev Ha Hp; [exact Hp|].
  cbn [allSpace] in Ha. apply andb_prop in Ha as [Hc Ha].
  cbn [lastOf]. apply IH; [exact Ha | now apply space_is_not_word].
Qed.

Lemma lastOf_nonword (prev : option ascii) (p : string) :
  isWord prev = false -> isWord (lastOf None p) = false ->
  isWord (lastOf prev p) = false.
Proof. destruct p as [|c p]; intros Hp H; [exact Hp | exact H]. Qed.

Lemma allSpace_head (b : string) : allSpace b = true -> isWord (head b) = false.
Proof.
  destruct b as [|c b]; [reflexivity|]. cbn [allSpace head isWord].
  intros H. apply andb_prop in H as [H _]. now apply space_is_not_word.
Qed.

Lemma head_app_nonword (post b : string) :
  isWord (head post) = false -> isWord (head b) = false ->
  isWord (head (post ++ b)) = false.
Proof. destruct post; intros; assumption. Qed.

Lemma trimStart_decompose (s : string) :
  exists a, s = a ++ trimStart s /\ allSpace a = true.
Proof.
  induction s as [|c s (a & E & Ha)]; [now exists ""|].
  cbn [trimStart]. destruct (isSpace c) eqn:Ec.
  - exists (String c a). cbn [append allSpace]. rewrite Ec, Ha.
    split; [now rewrite <- E | reflexivity].
  - now exists "".
Qed.

Lemma trimEnd_empty (s : string) : trimEnd s = "" -> allSpace s = true.
Proof.
  induction s as [|c s IH]; [reflexivity|]. cbn [trimEnd allSpace].
  destruct (trimEnd s); [|discriminate].
  destruct (isSpace c); [intros _; now apply IH | discriminate].
Qed.

Lemma trimEnd_decompose (s : string) :
  exists b, s = trimEnd s ++ b /\ allSpace b = true.
Proof.
  induction s as [|c s (b & E & Hb)]; [now exists ""|].
  cbn [trimEnd]. destruct (trimEnd s) as [|d t] eqn:Et.
  - pose proof (trimEnd_empty _ Et) as Hs. destruct (isSpace c) eqn:Ec.
    + exists (String c s). cbn [append allSpace]. now rewrite Ec, Hs.
    + exists s. now split.
  - exists b. split; [|exact Hb]. rewrite E at 1. reflexivity.
Qed.

(** A whole word of the trimmed text is a whole word of the text. *)
Lemma occursAsWord_untrim (w s : string) :
  occursAsWord w (trim s) -> occursAsWord w s.
Proof.
  intros (pre & post & E & Hpre & Hpost).
  destruct (trimStart_decompose s) as (a & Es & Ha).
  destruct (trimEnd_decompose (trimStart s)) as (b & Et & Hb).
  exists (a ++ pre), (post ++ b). split; [|split].
  - rewrite Es at 1. rewrite Et at 1. fold (trim s). rewrite E.
    now rewrite !append_assoc.
  - rewrite lastOf_app. apply lastOf_nonword; [|exact Hpre].
    now apply allSpace_lastOf.
  - apply head_app_nonword; [exact Hpost | now apply allSpace_head].
Qed.

Lemma findKeyword_false (keywords : list string) (upper : string) :
  findKeyword keywords upper = false <->
  (forall kw, In kw keywords -> testWord kw upper = false).
Proof.
  induction keywords as [|k ks IH]; cbn [findKeyword].
  - split; [intros _ kw [] | reflexivity].
  - destruct (testWord k upper) eqn:E.
    + split; [discriminate|]. intros H. rewrite <- E. apply H. now left.
    + rewrite IH. split.
      * intros H kw [<-|Hin]; [exact E | now apply H].
      * intros H kw Hin. apply H. now right.
Qed.

(** The classifier accepts exactly the statements whose first token is
    allowed and that hold no keyword of the block-set as a whole word. *)
Lemma readOnly_spec (query : string) :
  isReadOnlyQuery query = true <->
  In (toUpperCase (firstToken (stripNonCode query))) ALLOWED_PREFIXES
  /\ (forall kw, In kw WRITE_KEYWORDS ->
                 ~ occursAsWord kw (toUpperCase (stripNonCode query))).
Proof.
  unfold isReadOnlyQuery. set (S := stripNonCode query).
  rewrite firstWord_is_firstToken.
  assert (Hkw : findKeyword WRITE_KEYWORDS (toUpperCase (trim S)) = false <->
                forall kw, In kw WRITE_KEYWORDS ->
                           ~ occursAsWord kw (toUpperCase S)).
  { rewrite findKeyword_false. split; intros H kw Hin.
    - destruct (WRITE_KEYWORDS_shape _ Hin) as [Hshape _]. intros Hocc.
      apply (occursAsWord_trim _ _ Hshape) in Hocc. rewrite trim_upper in Hocc.
      apply (testWord_complete _ _ Hshape) in Hocc.
      rewrite (H kw Hin) in Hocc. discriminate.
    - destruct (WRITE_KEYWORDS_shape _ Hin) as [Hshape _].
      destruct (testWord kw (toUpperCase (trim S))) eqn:E; [|reflexivity].
      exfalso. apply (H kw Hin).
      apply (testWord_spec _ _ Hshape) in E. rewrite <- trim_upper in E.
      now apply occursAsWord_untrim in E. }
  destruct (includes ALLOWED_PREFIXES (toUpperCase (firstToken S))) eqn:Ei.
  - apply includes_In in Ei.
    assert (Hne : nonEmpty (trim S) = true).
    { destruct (trim S) eqn:Et; [|reflexivity]. exfalso.
      pose proof (firstWord_is_firstToken S) as Hf. rewrite Et in Hf.
      cbn in Hf. rewrite <- Hf in Ei. cbn in Ei.
      repeat (destruct Ei as [Ei|Ei]; [discriminate Ei|]). exact Ei. }
    rewrite Hne. cbn [negb].
    destruct (findKeyword WRITE_KEYWORDS (toUpperCase (trim S))) eqn:Ef.
    + split; [discriminate|]. intros [_ H]. apply Hkw in H. discriminate.
    + split; [intros _; split; [exact Ei | now apply Hkw] | reflexivity].
  - cbn [negb]. assert (Hn : ~ In (toUpperCase (firstToken S)) ALLOWED_PREFIXES).
    { intros H. apply includes_In in H. congruence. }
    destruct (negb (nonEmpty (trim S)));
      (split; [discriminate | intros [H _]; contradiction]).
Qed.

Lemma findKeyword_true (keywords : list string) (upper : string) :
  findKeyword keywords upper = true ->
  exists kw, In kw keywords /\ testWord kw upper = true.
Proof.
  induction keywords as [|k ks IH]; cbn [findKeyword]; [discriminate|].
  destruct (testWord k upper) eqn:E.
  - intros _. exists k. split; [now left | exact E].
  - intros H. destruct (IH H) as (kw & Hin & Hk). exists kw.
    split; [now right | exact Hk].
Qed.

(** X1.  A statement is read-only exactly when the first token of its
    stripped text, in upper case, is in the allow-set and no keyword of the
    block-set occurs as a whole word in the upper-cased stripped text; it is
    rejected exactly when the first token is not in the allow-set or some
    keyword of the block-set so occurs. *)
Theorem isReadOnlyQuery_iff (query : string) :
  (isReadOnlyQuery query = true <->
   In (toUpperCase (firstToken (stripNonCode query))) ALLOWED_PREFIXES
   /\ (forall kw, In kw WRITE_KEYWORDS ->
                  ~ occursAsWord kw (toUpperCase (stripNonCode query))))
  /\ (isReadOnlyQuery query = false <->
      ~ In (toUpperCase (firstToken (stripNonCode query))) ALLOWED_PREFIXES
      \/ exists kw, In kw WRITE_KEYWORDS
                    /\ occursAsWord kw (toUpperCase (stripNonCode query))).
Proof.
  split; [apply readOnly_spec|]. split.
  - intros Hfalse.
    destruct (in_dec string_dec
                (toUpperCase (firstToken (stripNonCode query)))
                ALLOWED_PREFIXES) as [Hin|Hout]; [|now left].
    right. unfold isReadOnlyQuery in Hfalse.
    rewrite firstWord_is_firstToken in Hfalse.
    apply includes_In in Hin. rewrite Hin in Hfalse. cbn [negb] in Hfalse.
    destruct (negb (nonEmpty (trim (stripNonCode query)))) eqn:Ene.
    + exfalso. apply negb_true_iff in Ene.
      destruct (trim (stripNonCode query)) eqn:Et; [|discriminate Ene].
      pose proof (firstWord_is_firstToken (stripNonCode query)) as Hf.
      rewrite Et in Hf. cbn in Hf. rewrite <- Hf in Hin.
      vm_compute in Hin. discriminate Hin.
    + destruct (findKeyword WRITE_KEYWORDS _) eqn:Ef; [|discriminate Hfalse].
      destruct (findKeyword_true _ _ Ef) as (kw & Hkw & Ht).
      exists kw. split; [exact Hkw|].
      destruct (WRITE_KEYWORDS_shape _ Hkw) as [Hshape _].
      apply (testWord_spec _ _ Hshape) in Ht. rewrite <- trim_upper in Ht.
      now apply occursAsWord_untrim in Ht.
  - intros H. destruct (isReadOnlyQuery query) eqn:E; [|reflexivity].
    exfalso. apply readOnly_spec in E as [Hfirst Hkw].
    destruct H as [H|(kw & Hin & Hocc)]; [contradiction|].
    exact (Hkw kw Hin Hocc).
Qed.

(** ** Stripping *)

Section Replacing.

Variable matchAt : string -> option nat.

Lemma replaceAll_length (skip : nat) (s : string) :
  String.length (replaceAll matchAt skip s) <= String.length s.
Proof.
  revert skip. induction s as [|c s IH]; intros skip; [apply le_n|].
  cbn [replaceAll]. destruct skip as [|k].
  - destruct (matchAt (String c s)) as [[|k]|]; cbn [String.length];
      apply le_n_S, IH.
  - cbn [String.length]. apply le_S, IH.
Qed.

Lemma replaceAll_skip (x y : string) (k : nat) :
  replaceAll matchAt (String.length x + k) (x ++ y) = replaceAll matchAt k y.
Proof. induction x as [|c x IH]; [reflexivity | exact IH]. Qed.

(** A replacement adds nothing but spaces. *)
Lemma replaceAll_occurrences (c : ascii) (skip : nat) (s : string) :
  Ascii.eqb c " " = false ->
  occurrences c (replaceAll matchAt skip s) <= occurrences c s.
Proof.
  intros Hc. revert skip. induction s as [|d s IH]; intros skip; [apply le_n|].
  cbn [replaceAll]. destruct skip as [|k].
  - destruct (matchAt (String d s)) as [[|k]|]; cbn [occurrences];
      rewrite ?Hc; try (apply Nat.add_le_mono_l, IH).
    specialize (IH k). lia.
  - cbn [occurrences]. specialize (IH k). lia.
Qed.

(** Text without the character that every match starts with is left as it
    is, and so is such text before other text. *)
Lemma replaceAll_app_plain (x : ascii) (a r : string) :
  (forall c t, Ascii.eqb x c = false -> matchAt (String c t) = None) ->
  lacks x a = true ->
  replaceAll matchAt 0 (a ++ r) = a ++ replaceAll matchAt 0 r.
Proof.
  intros Hm. induction a as [|c a IH]; intros Ha; [reflexivity|].
  cbn [lacks] in Ha. apply andb_prop in Ha as [Hc Ha].
  apply negb_true_iff in Hc.
  cbn [append replaceAll]. rewrite (Hm c _ Hc). now rewrite (IH Ha).
Qed.

Lemma replaceAll_plain (x : ascii) (s : string) :
  (forall c t, Ascii.eqb x c = false -> matchAt (String c t) = None) ->
  lacks x s = true ->
  replaceAll matchAt 0 s = s.
Proof.
  intros Hm Hs. rewrite <- (append_empty_r s) at 1.
  rewrite (replaceAll_app_plain x s "" Hm Hs). cbn [replaceAll].
  apply append_empty_r.
Qed.

End Replacing.

Lemma blockComment_start (c : ascii) (t : string) :
  Ascii.eqb "/" c = false -> blockComment (String c t) = None.
Proof.
  intros H. unfold blockComment. cbn [prefix].
  destruct (ascii_dec "/" c) as [<-|_]; [discriminate H | reflexivity].
Qed.

Lemma lineComment_start (c : ascii) (t : string) :
  Ascii.eqb "-" c = false -> lineComment (String c t) = None.
Proof.
  intros H. unfold lineComment. cbn [prefix].
  destruct (ascii_dec "-" c) as [<-|_]; [discriminate H | reflexivity].
Qed.

Lemma dollarQuoted_start (c : ascii) (t : string) :
  Ascii.eqb "$" c = false -> dollarQuoted (String c t) = None.
Proof.
  destruct c as [[] [] [] [] [] [] [] []]; intros H;
    try reflexivity; discriminate H.
Qed.

Lemma quoted_start (q c : ascii) (t : string) :
  Ascii.eqb q c = false -> quoted q (String c t) = None.
Proof.
  intros H. unfold quoted. rewrite Ascii.eqb_sym. now rewrite H.
Qed.

Lemma plain_parts (s : string) :
  plain s = true ->
  lacks "/" s = true /\ lacks "-" s = true /\ lacks "$" s = true
  /\ lacks "'" s = true /\ lacks "034" s = true.
Proof.
  unfold plain. intros H.
  repeat (apply andb_prop in H as [H ?]). repeat split; assumption.
Qed.

(** Text without the five opening characters is its own stripped copy. *)
Lemma strip_plain (query : string) :
  plain query = true -> stripNonCode query = query.
Proof.
  intros H. destruct (plain_parts _ H) as (H1 & H2 & H3 & H4 & H5).
  unfold stripNonCode.
  rewrite (replaceAll_plain _ "/" _ blockComment_start H1).
  rewrite (replaceAll_plain _ "-" _ lineComment_start H2).
  rewrite (replaceAll_plain _ "$" _ dollarQuoted_start H3).
  rewrite (replaceAll_plain _ "'" _ (quoted_start "'") H4).
  now rewrite (replaceAll_plain _ "034" _ (quoted_start "034") H5).
Qed.

(** X2.  Text that holds none of the five opening characters (slash,
    dash, dollar, single and double quote) is its own stripped copy, so it
    is classified by its own first token and its own words. *)
Theorem stripNonCode_plain (query : string) :
  plain query = true ->
  stripNonCode query = query
  /\ (isReadOnlyQuery query = true <->
      In (toUpperCase (firstToken query)) ALLOWED_PREFIXES
      /\ (forall kw, In kw WRITE_KEYWORDS ->
                     ~ occursAsWord kw (toUpperCase query))).
Proof.
  intros H. split; [now apply strip_plain|].
  rewrite readOnly_spec. now rewrite (strip_plain _ H).
Qed.

Lemma stripNonCode_plain_witness :
  stripNonCode "SELECT updated_at FROM t WHERE id = 1"
  = "SELECT updated_at FROM t WHERE id = 1"
  /\ (isReadOnlyQuery "SELECT updated_at FROM t WHERE id = 1" = true <->
      In (toUpperCase (firstToken "SELECT updated_at FROM t WHERE id = 1"))
         ALLOWED_PREFIXES
      /\ (forall kw, In kw WRITE_KEYWORDS ->
                     ~ occursAsWord kw
                         (toUpperCase "SELECT updated_at FROM t WHERE id = 1"))).
Proof.
  apply stripNonCode_plain. reflexivity.
Defined.

(** X3.  The stripped copy is never longer than the statement. *)
Theorem stripNonCode_length (query : string) :
  String.length (stripNonCode query) <= String.length query.
Proof.
  unfold stripNonCode.
  repeat (eapply Nat.le_trans; [apply replaceAll_length|]). apply le_n.
Qed.

Lemma lacks_occurrences (c : ascii) (s : string) :
  lacks c s = true -> occurrences c s = 0.
Proof.
  induction s as [|d s IH]; [reflexivity|]. cbn [lacks occurrences].
  intros H. apply andb_prop in H as [Hd Hs]. apply negb_true_iff in Hd.
  now rewrite Hd, (IH Hs).
Qed.

Lemma indexOf_char_lacks (c : ascii) (s : string) :
  indexOf s (String c "") = None -> lacks c s = true.
Proof.
  induction s as [|d s IH]; [reflexivity|]. cbn [indexOf lacks].
  rewrite prefix_char. destruct (Ascii.eqb c d); [discriminate|].
  destruct (indexOf s (String c "")); [discriminate|].
  intros _. now rewrite IH.
Qed.

(** After the literals between two [q] are blanked, at most one [q] is
    left. *)
Lemma quoted_occurrences (q : ascii) (skip : nat) (s : string) :
  Ascii.eqb q " " = false ->
  occurrences q (replaceAll (quoted q) skip s) <= 1.
Proof.
  intros Hq. revert skip. induction s as [|d s IH]; intros skip; [apply le_0_n|].
  cbn [replaceAll]. destruct skip as [|k]; [|apply IH].
  unfold quoted at 1. destruct (Ascii.eqb d q) eqn:Ed.
  - destruct (indexOf s (String q "")) as [k|] eqn:Ei; cbn [option_map].
    + replace (k + 2) with (S (k + 1)) by lia.
      cbn [occurrences]. rewrite Hq. apply IH.
    + apply indexOf_char_lacks, lacks_occurrences in Ei.
      cbn [occurrences]. rewrite Ascii.eqb_sym, Ed.
      pose proof (replaceAll_occurrences (quoted q) q 0 s Hq). lia.
  - cbn [occurrences]. rewrite Ascii.eqb_sym, Ed. apply IH.
Qed.

(** X4.  No complete literal and no complete quoted identifier is left in
    the stripped copy: it holds at most one single quote and at most one
    double quote. *)
Theorem stripNonCode_quotes (query : string) :
  occurrences "'" (stripNonCode query) <= 1
  /\ occurrences "034" (stripNonCode query) <= 1.
Proof.
  unfold stripNonCode. split.
  - eapply Nat.le_trans; [now apply replaceAll_occurrences|].
    now apply quoted_occurrences.
  - now apply quoted_occurrences.
Qed.

Lemma length_app (a b : string) :
  String.length (a ++ b) = String.length a + String.length b.
Proof. induction a as [|c a IH]; cbn; [reflexivity | now rewrite IH]. Qed.

Lemma indexOf_star_slash (c rest : string) :
  lacks "*" c = true ->
  indexOf (c ++ "*/" ++ rest) "*/" = Some (String.length c).
Proof.
  change ("*/" ++ rest) with (String "*" (String "/" rest)).
  induction c as [|d c IH]; intros H.
  - cbn. now rewrite prefix_empty.
  - cbn [lacks] in H. apply andb_prop in H as [Hd Hc].
    apply negb_true_iff, Ascii.eqb_neq in Hd.
    cbn [append indexOf prefix].
    destruct (ascii_dec "*" d) as [E|_]; [contradiction|].
    now rewrite (IH Hc).
Qed.

Lemma trim_leading_space (s : string) : trim (String " " s) = trim s.
Proof. reflexivity. Qed.

(** A block comment without a star inside is replaced by one space. *)
Lemma blockComment_blanked (comment query : string) :
  lacks "*" comment = true ->
  replaceAll blockComment 0 ("/*" ++ comment ++ "*/" ++ query)
  = String " " (replaceAll blockComment 0 query).
Proof.
  intros Hc.
  change ("/*" ++ comment ++ "*/" ++ query)
    with (String "/" (String "*" (comment ++ "*/" ++ query))).
  cbn [replaceAll]. unfold blockComment at 1.
  change (prefix "/*" (String "/" (String "*" (comment ++ "*/" ++ query))))
    with (prefix "" (comment ++ "*/" ++ query)).
  rewrite prefix_empty. cbn [drop].
  rewrite (indexOf_star_slash _ _ Hc). cbn [option_map].
  replace (2 + String.length comment + 2)
    with (S (String.length (String "*" (comment ++ "*/")) + 0))
    by (cbn [String.length]; rewrite (length_app comment "*/");
        cbn [String.length]; lia).
  f_equal.
  change (String "*" (comment ++ "*/" ++ query))
    with (String "*" (comment ++ ("*/" ++ query))).
  rewrite <- (append_assoc comment "*/" query).
  change (String "*" ((comment ++ "*/") ++ query))
    with (String "*" (comment ++ "*/") ++ query).
  apply replaceAll_skip.
Qed.

(** X5.  A block comment without a star inside, at the start of a
    statement, is blanked whatever it holds, and the statement is classified
    as the statement after it. *)
Theorem leading_block_comment_ignored (comment query : string) :
  lacks "*" comment = true ->
  stripNonCode ("/*" ++ comment ++ "*/" ++ query)
  = String " " (stripNonCode query)
  /\ isReadOnlyQuery ("/*" ++ comment ++ "*/" ++ query)
     = isReadOnlyQuery query.
Proof.
  intros Hc.
  assert (E : stripNonCode ("/*" ++ comment ++ "*/" ++ query)
              = String " " (stripNonCode query)).
  { unfold stripNonCode. rewrite (blockComment_blanked _ _ Hc).
    cbn [replaceAll].
    rewrite (lineComment_start " " _ eq_refl).
    cbn [replaceAll]. rewrite (dollarQuoted_start " " _ eq_refl).
    cbn [replaceAll]. rewrite (quoted_start "'" " " _ eq_refl).
    cbn [replaceAll]. rewrite (quoted_start "034" " " _ eq_refl).
    reflexivity. }
  split; [exact E|].
  unfold isReadOnlyQuery. rewrite E, trim_leading_space. reflexivity.
Qed.

Lemma leading_block_comment_witness :
  stripNonCode ("/*" ++ " DROP -- 'x $$ " ++ "*/" ++ "SELECT 1")
  = String " " (stripNonCode "SELECT 1")
  /\ isReadOnlyQuery ("/*" ++ " DROP -- 'x $$ " ++ "*/" ++ "SELECT 1")
     = isReadOnlyQuery "SELECT 1".
Proof.
  apply leading_block_comment_ignored. reflexivity.
Defined.

Lemma plain_app (a b : string) : plain (a ++ b) = plain a && plain b.
Proof.
  unfold plain. rewrite !lacks_app.
  destruct (lacks "/" a), (lacks "-" a), (lacks "$" a), (lacks "'" a),
    (lacks "034" a), (lacks "/" b), (lacks "-" b), (lacks "$" b),
    (lacks "'" b); reflexivity.
Qed.

(** X6.  A single-quoted literal between plain text is blanked whatever
    words it holds, as long as it holds no slash, dash or dollar (which the
    earlier passes read as code); the statement is classified as the text
    around it. *)
Theorem literal_blanked (a w b : string) :
  plain a = true -> plain b = true ->
  lacks "/" w = true -> lacks "-" w = true -> lacks "$" w = true ->
  lacks "'" w = true ->
  stripNonCode (a ++ "'" ++ w ++ "'" ++ b) = a ++ " " ++ b
  /\ isReadOnlyQuery (a ++ "'" ++ w ++ "'" ++ b)
     = isReadOnlyQuery (a ++ " " ++ b).
Proof.
  intros Ha Hb W1 W2 W3 W4.
  destruct (plain_parts _ Ha) as (A1 & A2 & A3 & A4 & A5).
  destruct (plain_parts _ Hb) as (B1 & B2 & B3 & B4 & B5).
  set (T := a ++ "'" ++ w ++ "'" ++ b).
  assert (T1 : lacks "/" T = true)
    by (subst T; rewrite !lacks_app, A1, W1, B1; reflexivity).
  assert (T2 : lacks "-" T = true)
    by (subst T; rewrite !lacks_app, A2, W2, B2; reflexivity).
  assert (T3 : lacks "$" T = true)
    by (subst T; rewrite !lacks_app, A3, W3, B3; reflexivity).
  assert (Hab : plain (a ++ " " ++ b) = true)
    by (rewrite !plain_app, Ha, Hb; reflexivity).
  assert (E : stripNonCode T = a ++ " " ++ b).
  { unfold stripNonCode.
    rewrite (replaceAll_plain _ "/" _ blockComment_start T1).
    rewrite (replaceAll_plain _ "-" _ lineComment_start T2).
    rewrite (replaceAll_plain _ "$" _ dollarQuoted_start T3).
    assert (E4 : replaceAll (quoted "'") 0 T = a ++ " " ++ b).
    { subst T.
      rewrite (replaceAll_app_plain _ "'" a _ (quoted_start "'") A4).
      f_equal.
      change ("'" ++ w ++ "'" ++ b) with (String "'" (w ++ String "'" b)).
      cbn [replaceAll]. unfold quoted at 1. rewrite Ascii.eqb_refl.
      rewrite (indexOf_char_app "'" w b W4). cbn [option_map].
      replace (String.length w + 2) with (S (String.length w + 1)) by lia.
      cbn [append]. f_equal.
      change (w ++ String "'" b) with (w ++ (String "'" "" ++ b)).
      rewrite <- append_assoc.
      replace (String.length w + 1)
        with (String.length (w ++ String "'" "") + 0)
        by (rewrite length_app; cbn [String.length]; lia).
      rewrite replaceAll_skip.
      apply (replaceAll_plain _ "'" _ (quoted_start "'") B4). }
    rewrite E4.
    destruct (plain_parts _ Hab) as (_ & _ & _ & _ & H5).
    apply (replaceAll_plain _ "034" _ (quoted_start "034") H5). }
  split; [exact E|].
  unfold isReadOnlyQuery. fold T. rewrite E.
  now rewrite (strip_plain _ Hab).
Qed.

Lemma literal_blanked_witness :
  stripNonCode ("SELECT " ++ "'" ++ "DROP TABLE users; DELETE" ++ "'" ++ " AS x")
  = "SELECT " ++ " " ++ " AS x"
  /\ isReadOnlyQuery
       ("SELECT " ++ "'" ++ "DROP TABLE users; DELETE" ++ "'" ++ " AS x")
     = isReadOnlyQuery ("SELECT " ++ " " ++ " AS x").
Proof.
  apply literal_blanked; reflexivity.
Defined.

(** X7.  Comments are blanked before literals: whatever stands between
    an opening comment mark inside one literal and a closing mark inside a
    later literal is blanked with them, so that text, keywords of the
    block-set included, is not scanned and the statement is read-only. *)
Theorem comment_marks_in_literals_hide_text (body : string) :
  lacks "*" body = true ->
  stripNonCode ("SELECT '" ++ "/*" ++ body ++ "*/" ++ "'") = "SELECT  "
  /\ isReadOnlyQuery ("SELECT '" ++ "/*" ++ body ++ "*/" ++ "'") = true.
Proof.
  intros Hb.
  assert (E : stripNonCode ("SELECT '" ++ "/*" ++ body ++ "*/" ++ "'")
              = "SELECT  ").
  { unfold stripNonCode.
    rewrite (replaceAll_app_plain _ "/" "SELECT '" _ blockComment_start eq_refl).
    rewrite (blockComment_blanked _ _ Hb). vm_compute. reflexivity. }
  split; [exact E|].
  unfold isReadOnlyQuery. rewrite E. vm_compute. reflexivity.
Qed.

Lemma comment_marks_in_literals_witness :
  stripNonCode
    ("SELECT '" ++ "/*" ++ "'; DROP TABLE users; SELECT '" ++ "*/" ++ "'")
  = "SELECT  "
  /\ isReadOnlyQuery
       ("SELECT '" ++ "/*" ++ "'; DROP TABLE users; SELECT '" ++ "*/" ++ "'")
     = true.
Proof.
  apply comment_marks_in_literals_hide_text. reflexivity.
Defined.

(** ** The connection-string parser: errors and fields *)

Lemma prefix_app (p b : string) : prefix p (p ++ b) = true.
Proof.
  induction p as [|c p IH]; [apply prefix_empty|].
  cbn [append prefix]. destruct (ascii_dec c c); [exact IH | contradiction].
Qed.

Lemma prefix_true (p s : string) : prefix p s = true -> exists b, s = p ++ b.
Proof.
  revert s. induction p as [|c p IH]; intros s H; [now exists s|].
  destruct s as [|d s]; [discriminate H|]. cbn [prefix] in H.
  destruct (ascii_dec c d) as [<-|_]; [|discriminate H].
  destruct (IH _ H) as (b & ->). now exists b.
Qed.

Lemma indexOf_found (s pat : string) (i : nat) :
  indexOf s pat = Some i -> contains pat s.
Proof.
  revert i. induction s as [|c s IH]; intros i; cbn [indexOf].
  - destruct (prefix pat "") eqn:E; [|discriminate]. intros _.
    destruct (prefix_true _ _ E) as (b & Eb). now exists "", b.
  - destruct (prefix pat (String c s)) eqn:E.
    + intros _. destruct (prefix_true _ _ E) as (b & Eb). now exists "", b.
    + destruct (indexOf s pat) as [j|]; [|discriminate]. intros _.
      destruct (IH j eq_refl) as (a & b & ->). now exists (String c a), b.
Qed.

Lemma indexOf_contains (s pat : string) :
  contains pat s -> exists i, indexOf s pat = Some i.
Proof.
  intros (a & b & ->). induction a as [|c a (i & IH)].
  - exists 0. cbn [append].
    pose proof (prefix_app pat b) as H.
    destruct (pat ++ b); cbn [indexOf]; now rewrite H.
  - cbn [append indexOf]. destruct (prefix pat _); [now exists 0|].
    rewrite IH. now exists (S i).
Qed.

Lemma indexOf_None (s pat : string) :
  indexOf s pat = None <-> ~ contains pat s.
Proof.
  split.
  - intros H Hc. destruct (indexOf_contains _ _ Hc) as (i & Hi). congruence.
  - intros H. destruct (indexOf s pat) as [i|] eqn:E; [|reflexivity].
    exfalso. apply H. now apply indexOf_found in E.
Qed.

Lemma lastIndexOf_char_lacks (c : ascii) (s : string) :
  lastIndexOf s (String c "") = None -> lacks c s = true.
Proof.
  induction s as [|d s IH]; [reflexivity|]. cbn [lastIndexOf lacks].
  destruct (lastIndexOf s (String c "")); [discriminate|].
  rewrite prefix_char. destruct (Ascii.eqb c d); [discriminate|].
  intros _. now rewrite IH.
Qed.

(** X8.  The parser refuses a string exactly in two cases: it raises the
    scheme error when the string holds no [://], and the credentials error
    when no [@] follows the first [://]; it raises nothing else. *)
Theorem parseConnectionString_errors :
  (forall cs,
      parseConnectionString cs = Throw noSchemeMessage <-> ~ contains "://" cs)
  /\ (forall scheme rest,
        lacks ":" scheme = true ->
        (parseConnectionString (scheme ++ "://" ++ rest) = Throw noAtMessage
         <-> lacks "@" rest = true))
  /\ (forall cs msg,
        parseConnectionString cs = Throw msg ->
        msg = noSchemeMessage \/ msg = noAtMessage).
Proof.
  split; [|split].
  - intros cs. unfold parseConnectionString.
    destruct (indexOf cs "://") as [i|] eqn:E.
    + assert (Hc : contains "://" cs) by now apply indexOf_found in E.
      destruct (lastIndexOf _ "@"); (split; [|intros H; contradiction]).
      * discriminate.
      * intros H. unfold noSchemeMessage in H. discriminate H.
    + split; [intros _; now apply indexOf_None | reflexivity].
  - intros scheme rest Hs. unfold parseConnectionString.
    rewrite (indexOf_scheme _ _ Hs), slice_after. cbn [drop append].
    destruct (lastIndexOf rest "@") as [i|] eqn:E.
    + split; [discriminate|]. intros H.
      rewrite (lastIndexOf_char_none "@" _ H) in E. discriminate E.
    + split; [intros _; now apply lastIndexOf_char_lacks | reflexivity].
  - intros cs msg. unfold parseConnectionString.
    destruct (indexOf cs "://"); [|intros H; injection H as <-; now left].
    destruct (lastIndexOf _ "@"); [discriminate|].
    intros H. injection H as <-. now right.
Qed.

Lemma parseConnectionString_errors_witness :
  parseConnectionString ("postgresql" ++ "://" ++ "localhost:5432/mydb")
  = Throw noAtMessage.
Proof.
  apply (proj1 (proj2 parseConnectionString_errors) "postgresql"
           "localhost:5432/mydb" eq_refl).
  reflexivity.
Defined.

Lemma splitFields_first_none (sep : ascii) (s : string) :
  lacks sep s = true -> fst (splitFields (String sep "") 0 s) = s.
Proof.
  induction s as [|d s IH]; intros H; [reflexivity|].
  cbn [lacks] in H. apply andb_prop in H as [Hd Hs]. apply negb_true_iff in Hd.
  cbn [splitFields]. rewrite prefix_char, Hd.
  specialize (IH Hs). destruct (splitFields (String sep "") 0 s).
  simpl in *. now rewrite IH.
Qed.

Lemma splitFields_first_app (sep : ascii) (a b : string) :
  lacks sep a = true ->
  fst (splitFields (String sep "") 0 (a ++ String sep b)) = a.
Proof.
  induction a as [|d a IH]; intros H.
  - cbn [append splitFields]. now rewrite prefix_char, Ascii.eqb_refl.
  - cbn [lacks] in H. apply andb_prop in H as [Hd Ha].
    apply negb_true_iff in Hd.
    cbn [append splitFields]. rewrite prefix_char, Hd.
    specialize (IH Ha). destruct (splitFields (String sep "") 0 _).
    simpl in *. now rewrite IH.
Qed.

Lemma split_first (s sep : string) :
  hd "" (split s sep) = fst (splitFields sep 0 s).
Proof. unfold split. now destruct (splitFields sep 0 s). Qed.

(** The database is the first field of what follows the first slash. *)
Lemma parse_database_raw (scheme userInfo hostPort rest : string) :
  lacks ":" scheme = true ->
  lacks "@" hostPort = true ->
  lacks "/" hostPort = true ->
  lacks "@" rest = true ->
  exists p,
    parseConnectionString
      (scheme ++ "://" ++ userInfo ++ "@" ++ hostPort ++ "/" ++ rest) = Ok p
    /\ database p = orUndefined (hd "" (split rest "?")).
Proof.
  intros Hs Hhp Hslash Hrest.
  assert (Hat : lacks "@" (hostPort ++ "/" ++ rest) = true)
    by now rewrite lacks_app, Hhp; cbn [append lacks Ascii.eqb]; rewrite Hrest.
  destruct (parse_sides scheme userInfo (hostPort ++ "/" ++ rest) Hs Hat)
    as (H1 & H2 & H3 & H4 & H5).
  unfold parseConnectionString. rewrite H1, H2, H3, H4, H5.
  change (hostPort ++ "/" ++ rest) with (hostPort ++ String "/" rest).
  rewrite (indexOf_char_app "/" hostPort rest Hslash).
  rewrite slice_after. cbn [drop].
  eexists. split; reflexivity.
Qed.

(** X9.  The database name is the text between the first slash after the
    host and the first question mark; what follows the question mark is
    dropped, and an empty name, like a missing path, gives no database. *)
Theorem parseConnectionString_database (scheme userInfo hostPort : string) :
  lacks ":" scheme = true ->
  lacks "@" hostPort = true ->
  lacks "/" hostPort = true ->
  (exists p,
      parseConnectionString (scheme ++ "://" ++ userInfo ++ "@" ++ hostPort)
      = Ok p /\ database p = None)
  /\ (forall db,
        lacks "@" db = true -> lacks "?" db = true ->
        exists p,
          parseConnectionString
            (scheme ++ "://" ++ userInfo ++ "@" ++ hostPort ++ "/" ++ db) = Ok p
          /\ database p = orUndefined db)
  /\ (forall db options,
        lacks "@" db = true -> lacks "?" db = true ->
        lacks "@" options = true ->
        exists p,
          parseConnectionString
            (scheme ++ "://" ++ userInfo ++ "@" ++ hostPort ++ "/" ++ db
             ++ "?" ++ options) = Ok p
          /\ database p = orUndefined db).
Proof.
  intros Hs Hhp Hslash. split; [|split].
  - destruct (parse_sides scheme userInfo hostPort Hs Hhp)
      as (H1 & H2 & H3 & H4 & H5).
    unfold parseConnectionString. rewrite H1, H2, H3, H4, H5.
    rewrite (indexOf_char_none "/" _ Hslash).
    eexists. split; reflexivity.
  - intros db Hdb Hq.
    destruct (parse_database_raw scheme userInfo hostPort db Hs Hhp Hslash Hdb)
      as (p & Hp & Hd).
    exists p. split; [exact Hp|].
    now rewrite Hd, split_first, (splitFields_first_none "?" _ Hq).
  - intros db options Hdb Hq Ho.
    assert (Hrest : lacks "@" (db ++ "?" ++ options) = true)
      by now rewrite lacks_app, Hdb; cbn [append lacks Ascii.eqb]; rewrite Ho.
    destruct (parse_database_raw scheme userInfo hostPort
                (db ++ "?" ++ options) Hs Hhp Hslash Hrest) as (p & Hp & Hd).
    exists p. split; [exact Hp|].
    rewrite Hd, split_first.
    change (db ++ "?" ++ options) with (db ++ String "?" options).
    now rewrite (splitFields_first_app "?" _ _ Hq).
Qed.

Lemma parseConnectionString_database_witness :
  exists p,
    parseConnectionString
      ("postgres" ++ "://" ++ "u:p" ++ "@" ++ "db.example.com:5432" ++ "/"
       ++ "mydb" ++ "?" ++ "sslmode=require") = Ok p
    /\ database p = Some "mydb".
Proof.
  exact (proj2 (proj2 (parseConnectionString_database "postgres" "u:p"
                         "db.example.com:5432" eq_refl eq_refl eq_refl))
           "mydb" "sslmode=require" eq_refl eq_refl eq_refl).
Defined.

(** X10.  The user and the password are the two sides of the first colon
    of the text before the last [@], each percent-decoded, or left as
    written when it does not decode; an empty side is undefined, and without
    a colon there is no password. *)
Theorem parseConnectionString_credentials (scheme userInfo hostPart : string) :
  lacks ":" scheme = true ->
  lacks "@" hostPart = true ->
  exists p,
    parseConnectionString (scheme ++ "://" ++ userInfo ++ "@" ++ hostPart)
    = Ok p
    /\ (lacks ":" userInfo = true ->
        user p = orUndefined (decodeComponent userInfo)
        /\ password p = None)
    /\ (forall u pw,
          userInfo = u ++ ":" ++ pw ->
          lacks ":" u = true ->
          user p = orUndefined (decodeComponent u)
          /\ password p = orUndefined (decodeComponent pw)).
Proof.
  intros Hs Hat.
  destruct (parse_sides scheme userInfo hostPart Hs Hat)
    as (H1 & H2 & H3 & H4 & H5).
  unfold parseConnectionString. rewrite H1, H2, H3, H4, H5.
  eexists. split; [reflexivity|]. cbn [user password]. split.
  - intros Hc. rewrite (indexOf_char_none ":" _ Hc). split; reflexivity.
  - intros u pw -> Hu.
    change (u ++ ":" ++ pw) with (u ++ String ":" pw).
    rewrite (indexOf_char_app ":" u pw Hu).
    rewrite slice_before, slice_after. cbn [drop]. split; reflexivity.
Qed.

Lemma parseConnectionString_credentials_witness :
  exists p,
    parseConnectionString ("postgres" ++ "://" ++ "admin:p%40ss" ++ "@"
                           ++ "db.example.com:5432/mydb") = Ok p
    /\ user p = Some "admin" /\ password p = Some "p@ss".
Proof.
  destruct (parseConnectionString_credentials "postgres" "admin:p%40ss"
              "db.example.com:5432/mydb" eq_refl eq_refl)
    as (p & Hp & _ & H).
  exists p. split; [exact Hp|].
  exact (H "admin" "p%40ss" eq_refl eq_refl).
Defined.

Lemma decodeFrom_app_plain (a r : string) :
  lacks "%" a = true ->
  decodeURIComponent (a ++ r) = option_map (append a) (decodeURIComponent r).
Proof.
  unfold decodeURIComponent. induction a as [|c a IH]; intros H.
  - cbn [append]. now destruct (decodeFrom 0 0 0 r).
  - cbn [lacks] in H. apply andb_prop in H as [Hc Ha].
    apply negb_true_iff in Hc. rewrite Ascii.eqb_sym in Hc.
    cbn [append decodeFrom]. rewrite Hc, (IH Ha).
    now destruct (decodeFrom 0 0 0 r).
Qed.

(** X11.  An escape of an ASCII character between text without percent
    signs is decoded to that character. *)
Theorem decodeComponent_escape (a b : string) (h1 h2 : ascii) (x y : N) :
  lacks "%" a = true ->
  lacks "%" b = true ->
  hexValue h1 = Some x ->
  hexValue h2 = Some y ->
  (16 * x + y < 128)%N ->
  decodeComponent (a ++ String "%" (String h1 (String h2 b)))
  = a ++ String (ascii_of_N (16 * x + y)) b.
Proof.
  intros Ha Hb H1 H2 Hlt. unfold decodeComponent.
  rewrite (decodeFrom_app_plain _ _ Ha). unfold decodeURIComponent.
  cbn [decodeFrom]. rewrite Ascii.eqb_refl, H1, H2.
  apply N.ltb_lt in Hlt. rewrite Hlt.
  fold (decodeURIComponent b). rewrite (decodeFrom_plain _ Hb). reflexivity.
Qed.

Lemma decodeComponent_escape_witness :
  decodeComponent ("p" ++ String "%" (String "4" (String "0" "ss")))
  = "p" ++ String (ascii_of_N (16 * 4 + 0)) "ss".
Proof.
  apply decodeComponent_escape; reflexivity.
Defined.

(** ** [main]: password, port, tunnel, environment *)

Section MainMore.
Import Index.

Variable readFile : string -> result string.
Variable execSync : string -> result string.
Variable env : Env.

Lemma resolvePassword_Ok (flags : ConnectionFlags) (pw : option string) :
  resolvePassword readFile execSync env flags = Ok pw ->
  if truthy (flag_password flags) then pw = flag_password flags
  else if truthy (flag_password_file flags) then
    exists text, readFile (nullish (flag_password_file flags) "") = Ok text
                 /\ pw = Some (trim text)
  else if truthy (flag_password_cmd flags) then
    exists out, execSync (nullish (flag_password_cmd flags) "") = Ok out
                /\ pw = Some (trim out)
  else pw = PGPASSWORD env.
Proof.
  unfold resolvePassword.
  destruct (truthy (flag_password flags)); [intros H; now injection H|].
  destruct (truthy (flag_password_file flags)).
  { destruct (readFile _) as [text|]; cbn [bind]; [|discriminate].
    intros H. injection H as <-. now exists text. }
  destruct (truthy (flag_password_cmd flags)); [|intros H; now injection H].
  destruct (execSync _) as [out|]; cbn [bind tryCatch]; [|discriminate].
  intros H. injection H as <-. now exists out.
Qed.

End MainMore.

(** X12.  The password [main] settles: the password flag when given; else
    the trimmed content of the password file; else the trimmed output of the
    password command; else PGPASSWORD when set, and only then the password
    of the top layer.  A file or an output that is empty after trimming
    gives the empty password, not the password of a lower source. *)
Theorem main_password_sources :
  forall (readFile execSync : string -> result string) (env : Env)
         (values : CliValues) (st : Index.Startup),
    Index.main readFile execSync env values = Ok st ->
    let flags := Index.parseFlags values in
    let pw := password (Index.connOptions st) in
    (truthy (flag_password flags) = true -> pw = flag_password flags)
    /\ (truthy (flag_password flags) = false ->
        truthy (flag_password_file flags) = true ->
        exists text,
          readFile (nullish (flag_password_file flags) "") = Ok text
          /\ pw = Some (trim text))
    /\ (truthy (flag_password flags) = false ->
        truthy (flag_password_file flags) = false ->
        truthy (flag_password_cmd flags) = true ->
        exists out,
          execSync (nullish (flag_password_cmd flags) "") = Ok out
          /\ pw = Some (trim out))
    /\ (truthy (flag_password flags) = false ->
        truthy (flag_password_file flags) = false ->
        truthy (flag_password_cmd flags) = false ->
        exists layer,
          topLayer env flags = Ok layer
          /\ pw = nullishOpt (PGPASSWORD env) (password layer)).
Proof.
  intros readFile execSync env values st Hmain flags pw.
  destruct (main_Ok_conn _ _ _ _ _ Hmain) as (base & p & s & Hb & Hp & Hc).
  apply resolvePassword_Ok in Hp. fold flags in Hb, Hp.
  subst pw. rewrite Hc.
  cbn [Index.withSsl Index.mergeOptions password].
  split; [|split; [|split]].
  - intros H1. rewrite H1 in Hp. subst p.
    unfold flags in *. cbn [Index.parseFlags flag_password] in *.
    destruct (flag_password values); [reflexivity | discriminate H1].
  - intros H1 H2. rewrite H1, H2 in Hp. destruct Hp as (text & Ht & ->).
    now exists text.
  - intros H1 H2 H3. rewrite H1, H2, H3 in Hp. destruct Hp as (out & Ho & ->).
    now exists out.
  - intros H1 H2 H3. rewrite H1, H2, H3 in Hp. subst p.
    exists base. split; [now apply baseOptions_topLayer | reflexivity].
Qed.

Lemma main_password_sources_witness :
  exists layer,
    topLayer Samples.pgEnv (Index.parseFlags Samples.aliceValues) = Ok layer
    /\ password (Index.connOptions Samples.aliceStartup)
       = nullishOpt (PGPASSWORD Samples.pgEnv) (password layer).
Proof.
  assert (H : Index.main Samples.sampleFiles Samples.noShell Samples.pgEnv
                Samples.aliceValues = Ok Samples.aliceStartup)
    by (vm_compute; reflexivity).
  apply (proj2 (proj2 (proj2 (main_password_sources _ _ _ _ _ H))));
    reflexivity.
Defined.

(** X13.  The port flag is taken as [parseInt] reads it, without a
    fallback: a [--port] that is not a number gives the port NaN. *)
Theorem main_port_flag :
  forall (readFile execSync : string -> result string) (env : Env)
         (values : CliValues) (st : Index.Startup) (text : string),
    Index.main readFile execSync env values = Ok st ->
    flag_port values = Some text ->
    nonEmpty text = true ->
    port (Index.connOptions st) = parseInt text.
Proof.
  intros readFile execSync env values st text Hmain Hport Hne.
  destruct (main_Ok_conn _ _ _ _ _ Hmain) as (base & p & s & _ & _ & Hc).
  rewrite Hc. cbn [Index.withSsl Index.mergeOptions port Index.parseFlags flag_port].
  unfold Index.parsePort. rewrite Hport. cbn [truthy nullish]. now rewrite Hne.
Qed.

Lemma main_port_flag_witness :
  port (Index.connOptions MoreSamples.portStartup) = parseInt "abc"
  /\ parseInt "abc" = NaN.
Proof.
  split; [|reflexivity].
  apply (main_port_flag Samples.sampleFiles Samples.noShell Samples.emptyEnv
           MoreSamples.portValues MoreSamples.portStartup "abc");
    [vm_compute; reflexivity | reflexivity | reflexivity].
Defined.

(** What [tunnelOptions] returns when it returns. *)
Lemma tunnelOptions_Ok (flags : ConnectionFlags)
  (conn : PostgresConnectionOptions) (r : option TunnelOptions) :
  Index.tunnelOptions flags conn = Ok r ->
  (r = None <-> truthy (flag_ssh_host flags) = false)
  /\ (forall t,
        r = Some t ->
        truthy (flag_ssh_user flags) = true
        /\ (truthy (flag_ssh_key flags) = true
            \/ truthy (flag_ssh_password flags) = true)
        /\ Some (sshHost t) = flag_ssh_host flags
        /\ Some (sshUser t) = flag_ssh_user flags
        /\ sshPort t = nullish (flag_ssh_port flags) (Num 22)
        /\ sshKey t = flag_ssh_key flags
        /\ sshPassword t = flag_ssh_password flags
        /\ targetHost t = host conn
        /\ targetPort t = port conn).
Proof.
  intros Hmain. unfold Index.tunnelOptions in Hmain.
  destruct (flag_ssh_host flags) as [h|] eqn:Eh; cbn [truthy nullish] in *.
  2:{ injection Hmain as <-. split; [tauto|]. intros t H. discriminate H. }
  destruct (nonEmpty h) eqn:Enh.
  2:{ injection Hmain as <-. split; [tauto|]. intros t H. discriminate H. }
  destruct (flag_ssh_user flags) as [u|] eqn:Eu; cbn [truthy nullish negb] in *;
    [|discriminate Hmain].
  destruct (nonEmpty u) eqn:Enu; cbn [negb] in Hmain; [|discriminate Hmain].
  destruct (truthy (flag_ssh_key flags)) eqn:Ek;
    destruct (truthy (flag_ssh_password flags)) eqn:Ep;
    cbn [negb andb] in Hmain; try discriminate Hmain;
    injection Hmain as <-;
    (split; [split; discriminate|]);
    intros t H; injection H as <-;
    cbn [sshHost sshUser sshPort sshKey sshPassword targetHost targetPort];
    repeat split; auto.
Qed.

(** X14.  [main] asks for a tunnel exactly when a tunnel host is given,
    and then a tunnel user and a key path or a password are given as well;
    the tunnel leads to the host and the port just settled, through port 22
    of the tunnel host unless a tunnel port is given. *)
Theorem main_tunnel_request :
  forall (readFile execSync : string -> result string) (env : Env)
         (values : CliValues) (st : Index.Startup),
    Index.main readFile execSync env values = Ok st ->
    let flags := Index.parseFlags values in
    (Index.tunnelRequest st = None <-> truthy (flag_ssh_host flags) = false)
    /\ (forall t,
          Index.tunnelRequest st = Some t ->
          truthy (flag_ssh_user flags) = true
          /\ (truthy (flag_ssh_key flags) = true
              \/ truthy (flag_ssh_password flags) = true)
          /\ Some (sshHost t) = flag_ssh_host flags
          /\ Some (sshUser t) = flag_ssh_user flags
          /\ sshPort t = nullish (flag_ssh_port flags) (Num 22)
          /\ sshKey t = flag_ssh_key flags
          /\ sshPassword t = flag_ssh_password flags
          /\ targetHost t = host (Index.connOptions st)
          /\ targetPort t = port (Index.connOptions st)).
Proof.
  intros readFile execSync env values st Hmain flags.
  apply main_Ok_tunnel in Hmain.
  exact (tunnelOptions_Ok _ _ _ Hmain).
Qed.

Lemma main_tunnel_request_witness :
  Index.tunnelRequest MoreSamples.tunnelStartup = None
  <-> truthy (flag_ssh_host (Index.parseFlags (Samples.tunnelValues true)))
      = false.
Proof.
  assert (H : Index.main Samples.sampleFiles Samples.noShell Samples.emptyEnv
                (Samples.tunnelValues true) = Ok MoreSamples.tunnelStartup)
    by (vm_compute; reflexivity).
  exact (proj1 (main_tunnel_request _ _ _ _ _ H)).
Defined.

(** X15.  A DATABASE_URL that does not parse stops [main] with the
    parser's error, whatever the flags are, a connection-string flag
    included. *)
Theorem main_bad_database_url :
  forall (readFile execSync : string -> result string) (env : Env)
         (values : CliValues) (url msg : string),
    DATABASE_URL env = Some url ->
    nonEmpty url = true ->
    parseConnectionString url = Throw msg ->
    Index.main readFile execSync env values = Throw msg.
Proof.
  intros readFile execSync env values url msg Hurl Hne Hparse.
  unfold Index.main, Index.baseOptions, Index.overlay.
  rewrite Hurl. cbn [truthy nullish]. rewrite Hne, Hparse. reflexivity.
Qed.

Lemma main_bad_database_url_witness :
  Index.main Samples.sampleFiles Samples.noShell MoreSamples.badUrlEnv
    (Samples.stringValues "postgresql://u:p@h/db" (Some "alice"))
  = Throw noSchemeMessage.
Proof.
  apply (main_bad_database_url _ _ MoreSamples.badUrlEnv _
           "localhost:5432/mydb"); reflexivity.
Defined.

(** ** The executor: failure and the statement terminator *)

(** X16.  [executeQuery] fails exactly when the engine refuses both the
    statement wrapped as a subquery and the statement with a bare LIMIT, and
    then with the error of the second; the error of the first is lost. *)
Theorem executeQuery_fails_iff :
  forall (unsafe : string -> result Client.RowList) (query : string)
         (limit : Z) (msg : string),
    let cleaned := Client.cleanQuery query in
    let count := numberToString (Client.effectiveLimitOf limit + 1) in
    Client.executeQuery unsafe query limit = Throw msg <->
    (exists first,
        unsafe ("SELECT * FROM (" ++ cleaned ++ ") AS _tusk_result LIMIT "
                ++ count) = Throw first)
    /\ unsafe (cleaned ++ " LIMIT " ++ count) = Throw msg.
Proof.
  intros unsafe query limit msg cleaned count.
  unfold Client.executeQuery, Client.fetchRows. fold cleaned. fold count.
  destruct (unsafe ("SELECT * FROM (" ++ cleaned ++ ") AS _tusk_result LIMIT "
                    ++ count)) as [r|m1]; cbn [tryCatch bind].
  - split; [discriminate|]. intros [(first & H) _]. discriminate H.
  - destruct (unsafe (cleaned ++ " LIMIT " ++ count)) as [r|m2]; cbn [bind].
    + split; [discriminate|]. intros [_ H]. discriminate H.
    + split.
      * intros H. injection H as ->. split; [now exists m1 | reflexivity].
      * intros [_ H]. injection H as ->. reflexivity.
Qed.

Lemma stripTerminator_plain (q : string) :
  lacks ";" q = true -> stripTerminator q = q.
Proof.
  induction q as [|c q IH]; [reflexivity|]. cbn [lacks stripTerminator].
  intros H. apply andb_prop in H as [Hc Hq]. apply negb_true_iff in Hc.
  rewrite Ascii.eqb_sym in Hc. rewrite Hc. cbn [andb]. now rewrite (IH Hq).
Qed.

Lemma stripTerminator_app (q r : string) :
  lacks ";" q = true -> stripTerminator (q ++ r) = q ++ stripTerminator r.
Proof.
  induction q as [|c q IH]; [reflexivity|]. cbn [lacks append stripTerminator].
  intros H. apply andb_prop in H as [Hc Hq]. apply negb_true_iff in Hc.
  rewrite Ascii.eqb_sym in Hc. rewrite Hc. cbn [andb]. now rewrite (IH Hq).
Qed.

(** X17.  Of a statement without other semicolons, [executeQuery] drops
    one closing semicolon with the white space after it, and no more: of two
    closing semicolons the first stays; the statement is trimmed in every
    case. *)
Theorem cleanQuery_terminator (q ws : string) :
  lacks ";" q = true ->
  allSpace ws = true ->
  Client.cleanQuery q = trim q
  /\ Client.cleanQuery (q ++ ";" ++ ws) = trim q
  /\ Client.cleanQuery (q ++ ";" ++ ";" ++ ws) = trim (q ++ ";").
Proof.
  intros Hq Hws. unfold Client.cleanQuery. split; [|split].
  - now rewrite stripTerminator_plain.
  - rewrite (stripTerminator_app _ _ Hq).
    change (";" ++ ws) with (String ";" ws). cbn [stripTerminator].
    rewrite Ascii.eqb_refl, Hws. cbn [andb]. now rewrite append_empty_r.
  - rewrite (stripTerminator_app _ _ Hq).
    change (";" ++ ";" ++ ws) with (String ";" (String ";" ws)).
    cbn [stripTerminator allSpace]. rewrite Ascii.eqb_refl, Hws.
    reflexivity.
Qed.

Lemma cleanQuery_terminator_witness :
  Client.cleanQuery " SELECT 1 " = trim " SELECT 1 "
  /\ Client.cleanQuery (" SELECT 1 " ++ ";" ++ "  ") = trim " SELECT 1 "
  /\ Client.cleanQuery (" SELECT 1 " ++ ";" ++ ";" ++ "  ")
     = trim (" SELECT 1 " ++ ";").
Proof.
  apply cleanQuery_terminator; reflexivity.
Defined.

(** ** The handler of [execute-query] *)

(** X18.  The handler works on the copy of the statement that
    [stripNonCode] computes: when that copy, upper-cased, holds a keyword of
    the block-set as a whole word, or when its first token is not in the
    allow-set, the handler answers with the read-only error, whatever the
    engine would do with the statement; and an answer without the error flag
    is the printed result of a statement that [isReadOnlyQuery] accepted and
    that the engine ran.  A keyword that [stripNonCode] blanks, rightly or
    not, is not in that copy and does not count. *)
Theorem executeQueryTool_gate :
  forall (unsafe : string -> result Client.RowList)
         (stringify : QueryResult -> string) (query : string) (limit : Z),
    ((~ In (toUpperCase (firstToken (stripNonCode query))) ALLOWED_PREFIXES
      \/ exists kw, In kw WRITE_KEYWORDS
                    /\ occursAsWord kw (toUpperCase (stripNonCode query))) ->
     Handlers.executeQueryTool unsafe stringify query limit
     = {| Handlers.text := Handlers.readOnlyMessage;
          Handlers.isError := true |})
    /\ (Handlers.isError (Handlers.executeQueryTool unsafe stringify query limit)
        = false ->
        isReadOnlyQuery query = true
        /\ exists r, Client.executeQuery unsafe query limit = Ok r
                     /\ Handlers.text (Handlers.executeQueryTool unsafe stringify
                                         query limit) = stringify r).
Proof.
  intros unsafe stringify query limit. unfold Handlers.executeQueryTool. split.
  - intros H. destruct (isReadOnlyQuery query) eqn:E; [|reflexivity].
    exfalso. apply readOnly_spec in E as [Hfirst Hkw].
    destruct H as [H|(kw & Hin & Hocc)]; [contradiction|].
    exact (Hkw kw Hin Hocc).
  - destruct (isReadOnlyQuery query); cbn [negb]; [|discriminate].
    destruct (Client.executeQuery unsafe query limit) as [r|msg];
      cbn [Handlers.formatToolResult Handlers.formatToolError Handlers.isError
           Handlers.text]; [|discriminate].
    intros _. split; [reflexivity|]. now exists r.
Qed.

Lemma executeQueryTool_gate_witness :
  Handlers.executeQueryTool Samples.threeRows MoreSamples.printCount
    "WITH x AS (DELETE FROM t RETURNING 1) SELECT * FROM x" 10
  = {| Handlers.text := Handlers.readOnlyMessage; Handlers.isError := true |}.
Proof.
  apply (proj1 (executeQueryTool_gate Samples.threeRows MoreSamples.printCount
                  "WITH x AS (DELETE FROM t RETURNING 1) SELECT * FROM x" 10)).
  right. exists "DELETE". split; [vm_compute; tauto|].
  exists "WITH X AS (", " FROM T RETURNING 1) SELECT * FROM X".
  vm_compute. repeat split.
Defined.

(** ** The tools of a server *)

(** X19.  The server of [main] offers the three schema tools always, and
    [execute-query] exactly when the structure-only flag is not set. *)
Theorem structure_only_hides_execute_query :
  forall (readFile execSync : string -> result string) (env : Env)
         (values : CliValues) (st : Index.Startup),
    Index.main readFile execSync env values = Ok st ->
    (In "execute-query" (Server.registerAllTools (Index.structureOnly st))
     <-> flag_structure_only values = false)
    /\ (forall tool, In tool Server.schemaTools ->
                     In tool (Server.registerAllTools (Index.structureOnly st))).
Proof.
  intros readFile execSync env values st Hmain.
  assert (Hs : Index.structureOnly st = flag_structure_only values).
  { unfold Index.main in Hmain.
    destruct (Index.baseOptions env _); [|discriminate Hmain].
    destruct (Index.resolvePassword _ _ _ _); [|discriminate Hmain].
    destruct (Index.buildSslConfig _ _); [|discriminate Hmain].
    cbn [bind] in Hmain.
    destruct (Index.tunnelOptions _ _); [|discriminate Hmain].
    cbn [bind] in Hmain. now injection Hmain as <-. }
  rewrite Hs. unfold Server.registerAllTools. split.
  - destruct (flag_structure_only values); cbn [negb].
    + split; [|discriminate]. intros H. apply in_app_or in H as [H|[]].
      vm_compute in H. repeat (destruct H as [H|H]; [discriminate H|]).
      destruct H.
    + split; [reflexivity|]. intros _. apply in_or_app. right. now left.
  - intros tool H. apply in_or_app. now left.
Qed.

Lemma structure_only_witness :
  In "execute-query"
     (Server.registerAllTools (Index.structureOnly Samples.aliceStartup))
  <-> flag_structure_only Samples.aliceValues = false.
Proof.
  assert (H : Index.main Samples.sampleFiles Samples.noShell Samples.pgEnv
                Samples.aliceValues = Ok Samples.aliceStartup)
    by (vm_compute; reflexivity).
  exact (proj1 (structure_only_hides_execute_query _ _ _ _ _ H)).
Defined.

(** ** The connection test of the setup page *)

Section SetupTest.

Variable readFile : string -> result string.

Lemma setup_readIfGiven_Ok (path content : option string) :
  Setup.readIfGiven readFile path = Ok content ->
  attached readFile path content.
Proof. exact (readIfGiven_Ok readFile path content). Qed.

(** The options before the TLS settings are added. *)
Lemma testOptions_Ok (params : Setup.TestParams)
  (conn : PostgresConnectionOptions) :
  Setup.testOptions readFile params = Ok conn ->
  exists conn1 tls,
    conn = {| host := host conn1; port := port conn1; user := user conn1;
              password := password conn1; database := database conn1;
              ssl := tls |}
    /\ (if truthy (Setup.p_connectionString params)
        then parseConnectionString
               (nullish (Setup.p_connectionString params) "") = Ok conn1
        else conn1 =
             {| host := if truthy (Setup.p_host params)
                        then nullish (Setup.p_host params) ""
                        else "localhost";
                port := Setup.numberOr
                          (parseInt (Setup.toString (Setup.p_port params)))
                          5432;
                user := Setup.orUndefinedOpt (Setup.p_user params);
                password := Setup.orUndefinedOpt (Setup.p_password params);
                database := Setup.orUndefinedOpt (Setup.p_database params);
                ssl := None |})
    /\ (if Setup.p_ssl params || truthy (Setup.p_sslCa params)
           || truthy (Setup.p_sslCert params)
           || truthy (Setup.p_sslKey params)
        then exists ca_ cert_ key_,
            tls = Some (SslOptions
                          {| rejectUnauthorized :=
                               truthy (Setup.p_sslCa params);
                             ca := ca_; cert := cert_; key := key_ |})
            /\ attached readFile (Setup.p_sslCa params) ca_
            /\ attached readFile (Setup.p_sslCert params) cert_
            /\ attached readFile (Setup.p_sslKey params) key_
        else tls = None).
Proof.
  unfold Setup.testOptions.
  set (conn0 := {| host := _; port := _; user := _; password := _;
                   database := _; ssl := None |}).
  destruct (truthy (Setup.p_connectionString params)).
  - destruct (parseConnectionString _) as [p|] eqn:Ep; cbn [bind];
      [|discriminate].
    pose proof (parse_ssl_absent _ _ Ep) as Hssl.
    destruct (Setup.p_ssl params || truthy (Setup.p_sslCa params)
              || truthy (Setup.p_sslCert params)
              || truthy (Setup.p_sslKey params)).
    + destruct (Setup.readIfGiven readFile (Setup.p_sslCa params))
        as [a|] eqn:Ea; [|discriminate].
      destruct (Setup.readIfGiven readFile (Setup.p_sslCert params))
        as [c|] eqn:Ec; [|discriminate].
      destruct (Setup.readIfGiven readFile (Setup.p_sslKey params))
        as [k|] eqn:Ek; [|discriminate].
      cbn [bind host port user password database ssl].
      intros H. injection H as <-. exists p. eexists.
      split; [reflexivity|]. split; [reflexivity|].
      exists a, c, k. repeat split; now apply setup_readIfGiven_Ok.
    + cbn [host port user password database ssl].
      intros H. injection H as <-. exists p, None.
      split; [|split; reflexivity]. destruct p; cbn in *. now subst.
  - cbn [bind].
    destruct (Setup.p_ssl params || truthy (Setup.p_sslCa params)
              || truthy (Setup.p_sslCert params)
              || truthy (Setup.p_sslKey params)).
    + destruct (Setup.readIfGiven readFile (Setup.p_sslCa params))
        as [a|] eqn:Ea; [|discriminate].
      destruct (Setup.readIfGiven readFile (Setup.p_sslCert params))
        as [c|] eqn:Ec; [|discriminate].
      destruct (Setup.readIfGiven readFile (Setup.p_sslKey params))
        as [k|] eqn:Ek; [|discriminate].
      cbn [bind]. intros H. injection H as <-. exists conn0. eexists.
      split; [reflexivity|]. split; [reflexivity|].
      exists a, c, k. repeat split; now apply setup_readIfGiven_Ok.
    + intros H. injection H as <-. exists conn0, None.
      split; [reflexivity|]. split; reflexivity.
Qed.

End SetupTest.

(** X20.  The connection test of the setup page verifies the peer exactly
    when a CA path is given: with the enable flag, a certificate path or a
    key path but no CA path it encrypts without verifying, and attaches the
    content of each file whose path is given; without any of the four
    inputs it uses no TLS. *)
Theorem setup_tls_from_request :
  forall (readFile : string -> result string) (params : Setup.TestParams)
         (conn : PostgresConnectionOptions),
    Setup.testOptions readFile params = Ok conn ->
    let anyInput := Setup.p_ssl params || truthy (Setup.p_sslCa params)
                    || truthy (Setup.p_sslCert params)
                    || truthy (Setup.p_sslKey params) in
    (anyInput = false -> ssl conn = None)
    /\ (anyInput = true ->
        exists ca_ cert_ key_,
          ssl conn = Some (SslOptions
                             {| rejectUnauthorized :=
                                  truthy (Setup.p_sslCa params);
                                ca := ca_; cert := cert_; key := key_ |})
          /\ attached readFile (Setup.p_sslCa params) ca_
          /\ attached readFile (Setup.p_sslCert params) cert_
          /\ attached readFile (Setup.p_sslKey params) key_).
Proof.
  intros readFile params conn H anyInput.
  destruct (testOptions_Ok _ _ _ H) as (conn1 & tls & -> & _ & Htls).
  fold anyInput in Htls. cbn [ssl]. split; intros Hany; rewrite Hany in Htls.
  - exact Htls.
  - exact Htls.
Qed.

Lemma setup_tls_from_request_witness :
  exists conn ca_ cert_ key_,
    Setup.testOptions Samples.sampleFiles (MoreSamples.certParams None)
    = Ok conn
    /\ ssl conn = Some (SslOptions {| rejectUnauthorized := false; ca := ca_;
                                      cert := cert_; key := key_ |})
    /\ cert_ = Some "contents of client.crt".
Proof.
  destruct (Setup.testOptions Samples.sampleFiles (MoreSamples.certParams None))
    as [conn|msg] eqn:E; [|vm_compute in E; discriminate E].
  destruct (proj2 (setup_tls_from_request _ _ _ E) eq_refl)
    as (a & c & k & Hs & _ & Hc & _).
  exists conn, a, c, k. split; [reflexivity|]. split; [exact Hs|].
  destruct Hc as (text & Ht & ->). vm_compute in Ht. now injection Ht as <-.
Defined.

(** X21.  On the same TLS inputs with a certificate or key path and no
    CA path, the connection test of the setup page and [main] differ: the
    test does not verify the peer, [main] does; the files attached are the
    same. *)
Theorem setup_and_main_differ_without_ca :
  forall (readFile : string -> result string) (params : Setup.TestParams)
         (flags : ConnectionFlags) (conn : PostgresConnectionOptions)
         (s : SslSetting),
    flag_ssl flags = Setup.p_ssl params ->
    flag_ssl_ca flags = Setup.p_sslCa params ->
    flag_ssl_cert flags = Setup.p_sslCert params ->
    flag_ssl_key flags = Setup.p_sslKey params ->
    truthy (Setup.p_sslCa params) = false ->
    truthy (Setup.p_sslCert params) || truthy (Setup.p_sslKey params) = true ->
    Setup.testOptions readFile params = Ok conn ->
    Index.buildSslConfig readFile flags = Ok s ->
    exists cert_ key_,
      ssl conn = Some (SslOptions {| rejectUnauthorized := false; ca := None;
                                     cert := cert_; key := key_ |})
      /\ s = SslOptions {| rejectUnauthorized := true; ca := None;
                           cert := cert_; key := key_ |}.
Proof.
  intros readFile params flags conn s Essl Eca Ecert Ekey Hca Hany Htest Hmain.
  destruct (testOptions_Ok _ _ _ Htest) as (conn1 & tls & -> & _ & Htls).
  rewrite Hca in Htls. rewrite orb_false_r in Htls.
  replace (Setup.p_ssl params || truthy (Setup.p_sslCert params)
           || truthy (Setup.p_sslKey params)) with true in Htls
    by (rewrite <- orb_assoc, Hany; now rewrite orb_true_r).
  destruct Htls as (a & c & k & -> & Ha & Hc & Hk).
  unfold attached in Ha. rewrite Hca in Ha. subst a.
  rewrite buildSslConfig_paths in Hmain
    by (rewrite Eca, Ecert, Ekey, Hca; exact Hany).
  rewrite Eca, Ecert, Ekey in Hmain.
  rewrite (readIfGiven_attached readFile _ None) in Hmain
    by (unfold attached; now rewrite Hca).
  rewrite (readIfGiven_attached _ _ _ Hc), (readIfGiven_attached _ _ _ Hk)
    in Hmain.
  cbn [bind] in Hmain. injection Hmain as <-.
  exists c, k. split; reflexivity.
Qed.

Lemma setup_and_main_differ_witness :
  exists conn s cert_ key_,
    Setup.testOptions Samples.sampleFiles (MoreSamples.certParams None)
    = Ok conn
    /\ Index.buildSslConfig Samples.sampleFiles Samples.certOnly = Ok s
    /\ ssl conn = Some (SslOptions {| rejectUnauthorized := false; ca := None;
                                      cert := cert_; key := key_ |})
    /\ s = SslOptions {| rejectUnauthorized := true; ca := None;
                         cert := cert_; key := key_ |}.
Proof.
  destruct (Setup.testOptions Samples.sampleFiles (MoreSamples.certParams None))
    as [conn|msg] eqn:E; [|vm_compute in E; discriminate E].
  destruct (Index.buildSslConfig Samples.sampleFiles Samples.certOnly)
    as [s|msg] eqn:Es; [|vm_compute in Es; discriminate Es].
  destruct (setup_and_main_differ_without_ca Samples.sampleFiles
              (MoreSamples.certParams None) Samples.certOnly conn s
              eq_refl eq_refl eq_refl eq_refl eq_refl eq_refl E Es)
    as (c & k & Hc & Hs).
  exists conn, s, c, k. repeat split; assumption.
Defined.

(** X22.  Without a connection string the connection test takes the host
    of the request, or localhost when it is empty or missing; its port is
    5432 when [parseInt] reads the port text as NaN or as 0, and otherwise
    the number that [parseInt] reads, so that the port is never NaN and
    never 0; user, password and database are those of the request, taken as
    missing when empty.  With a connection string it takes host, port, user,
    password and database from the parsed string and ignores the separate
    fields. *)
Theorem setup_connection_fields :
  forall (readFile : string -> result string) (params : Setup.TestParams)
         (conn : PostgresConnectionOptions),
    Setup.testOptions readFile params = Ok conn ->
    (truthy (Setup.p_connectionString params) = false ->
     host conn = (if truthy (Setup.p_host params)
                  then nullish (Setup.p_host params) "" else "localhost")
     /\ host conn <> ""
     /\ (parseInt (Setup.toString (Setup.p_port params)) = NaN
         \/ parseInt (Setup.toString (Setup.p_port params)) = Num 0 ->
         port conn = Num 5432)
     /\ (parseInt (Setup.toString (Setup.p_port params)) <> NaN ->
         parseInt (Setup.toString (Setup.p_port params)) <> Num 0 ->
         port conn = parseInt (Setup.toString (Setup.p_port params)))
     /\ port conn <> NaN
     /\ port conn <> Num 0
     /\ user conn = Setup.orUndefinedOpt (Setup.p_user params)
     /\ password conn = Setup.orUndefinedOpt (Setup.p_password params)
     /\ database conn = Setup.orUndefinedOpt (Setup.p_database params))
    /\ (truthy (Setup.p_connectionString params) = true ->
        exists parsed,
          parseConnectionString
            (nullish (Setup.p_connectionString params) "") = Ok parsed
          /\ host conn = host parsed /\ port conn = port parsed
          /\ user conn = user parsed /\ password conn = password parsed
          /\ database conn = database parsed).
Proof.
  intros readFile params conn H.
  destruct (testOptions_Ok _ _ _ H) as (conn1 & tls & -> & Hfields & _).
  cbn [host port user password database].
  split; intros Hcs; rewrite Hcs in Hfields.
  - subst conn1. cbn [host port user password database].
    split; [reflexivity|].
    split; [destruct (Setup.p_host params) as [[|c h]|]; cbn; discriminate|].
    unfold Setup.numberOr.
    destruct (parseInt _) as [|z|b].
    + split; [reflexivity|]. split; [intros Hn; now elim Hn|].
      split; [discriminate|]. split; [discriminate|]. repeat split.
    + destruct (Z.eqb_spec z 0) as [->|Hz].
      * split; [reflexivity|]. split; [intros _ Hn; now elim Hn|].
        split; [discriminate|]. split; [discriminate|]. repeat split.
      * split; [intros [E|E]; [discriminate E | injection E as E; lia]|].
        split; [reflexivity|]. split; [discriminate|].
        split; [intros E; injection E as E; lia|]. repeat split.
    + split; [intros [E|E]; discriminate E|].
      split; [reflexivity|]. split; [discriminate|].
      split; [discriminate|]. repeat split.
  - exists conn1. split; [exact Hfields|]. repeat split.
Qed.

Lemma setup_connection_fields_witness :
  exists conn,
    Setup.testOptions Samples.sampleFiles (MoreSamples.certParams None)
    = Ok conn
    /\ host conn = "db.example.com"
    /\ port conn = Num 5432.
Proof.
  destruct (Setup.testOptions Samples.sampleFiles (MoreSamples.certParams None))
    as [conn|msg] eqn:E; [|vm_compute in E; discriminate E].
  destruct (proj1 (setup_connection_fields _ _ _ E) eq_refl)
    as (Hh & _ & Hp & _).
  exists conn. split; [reflexivity|].
  split; [exact Hh | exact (Hp (or_intror eq_refl))].
Defined.

(** ** The tunnel session *)

(** X23.  The session of a tunnel that [main] asks for is requested with
    a user and a host that are not empty and with at least one credential:
    the text of the key file when a key path is given, which is then read,
    and the password as given. *)
Theorem tunnel_session_credentials :
  forall (readFile execSync readKey : string -> result string) (env : Env)
         (values : CliValues) (st : Index.Startup) (t : TunnelOptions)
         (cfg : Tunnel.ConnectConfig),
    Index.main readFile execSync env values = Ok st ->
    Index.tunnelRequest st = Some t ->
    Tunnel.connectConfig readKey t = Ok cfg ->
    (Tunnel.privateKey cfg <> None
     \/ truthy (Tunnel.ssh_password cfg) = true)
    /\ Tunnel.username cfg <> ""
    /\ Tunnel.ssh_host cfg <> ""
    /\ Tunnel.ssh_password cfg = flag_ssh_password values
    /\ (forall path, flag_ssh_key values = Some path -> path <> "" ->
          exists text, readKey path = Ok text
                       /\ Tunnel.privateKey cfg = Some text).
Proof.
  intros readFile execSync readKey env values st t cfg Hmain Ht Hcfg.
  apply main_Ok_tunnel in Hmain.
  destruct (tunnelOptions_Ok _ _ _ Hmain) as [Hnone H].
  destruct (H t Ht) as (Huser & Hcred & Hhost & Hu & _ & Hkey & Hpw & _).
  cbn [Index.parseFlags flag_ssh_user flag_ssh_key flag_ssh_password
       flag_ssh_host] in *.
  assert (Hnh : sshHost t <> "").
  { intros E. rewrite E in Hhost.
    assert (Hth : truthy (flag_ssh_host values) = false)
      by (rewrite <- Hhost; reflexivity).
    apply Hnone in Hth. rewrite Ht in Hth. discriminate Hth. }
  unfold Tunnel.connectConfig in Hcfg. rewrite Hkey, Hpw in Hcfg.
  destruct (truthy (flag_ssh_key values)) eqn:Ek.
  - destruct (flag_ssh_key values) as [path|] eqn:Ep; [|discriminate Ek].
    cbn [nullish] in Hcfg.
    destruct (readKey path) as [text|] eqn:Er; cbn [bind] in Hcfg;
      [|discriminate Hcfg].
    injection Hcfg as <-.
    cbn [Tunnel.privateKey Tunnel.ssh_password Tunnel.username Tunnel.ssh_host].
    split; [left; discriminate|].
    split; [rewrite <- Hu in Huser; intros E; rewrite E in Huser;
            discriminate Huser|].
    split; [exact Hnh|].
    split; [reflexivity|].
    intros p Hp _. injection Hp as <-. now exists text.
  - cbn [bind] in Hcfg. injection Hcfg as <-.
    cbn [Tunnel.privateKey Tunnel.ssh_password Tunnel.username Tunnel.ssh_host].
    destruct Hcred as [Hc|Hc]; [discriminate Hc|].
    split; [now right|].
    split; [rewrite <- Hu in Huser; intros E; rewrite E in Huser;
            discriminate Huser|].
    split; [exact Hnh|].
    split; [reflexivity|].
    intros p Hp Hne. rewrite Hp in Ek. cbn [truthy] in Ek.
    destruct p; [contradiction | discriminate Ek].
Qed.

Lemma tunnel_session_credentials_witness :
  exists cfg,
    Tunnel.connectConfig Samples.sampleFiles
      {| sshHost := "bastion.example.com"; sshPort := Num 22;
         sshUser := "deploy"; sshKey := Some "id_rsa";
         sshPassword := Some "secret"; targetHost := "db-internal";
         targetPort := Num 5432 |} = Ok cfg
    /\ (Tunnel.privateKey cfg <> None
        \/ truthy (Tunnel.ssh_password cfg) = true)
    /\ Tunnel.username cfg <> "".
Proof.
  destruct (Tunnel.connectConfig Samples.sampleFiles _) as [cfg|msg] eqn:E;
    [|vm_compute in E; discriminate E].
  assert (H : Index.main Samples.sampleFiles Samples.noShell Samples.emptyEnv
                (Samples.tunnelValues true) = Ok MoreSamples.tunnelStartup)
    by (vm_compute; reflexivity).
  destruct (tunnel_session_credentials _ _ _ _ _ _ _ _ H eq_refl E)
    as (Hc & Hu & _).
  exists cfg. split; [reflexivity|]. split; assumption.
Defined.

(** ** Escapes that do not decode, and the scheme *)

Lemma hexValue_percent : hexValue "%" = None.
Proof. reflexivity. Qed.

(** A percent sign that no two hexadecimal digits follow stops the
    decoding, in whatever state it is met. *)
Lemma decodeFrom_malformed (k : nat) :
  forall (a b : string) (need : nat) (lo hi : N),
    String.length a <= k ->
    startsWithHexPair b = false ->
    decodeFrom need lo hi (a ++ String "%" b) = None.
Proof.
  induction k as [|k IH]; intros a b need lo hi Hlen Hb.
  - destruct a; [|cbn in Hlen; lia]. cbn [append decodeFrom].
    rewrite Ascii.eqb_refl.
    destruct b as [|h1 [|h2 b]]; cbn [startsWithHexPair] in Hb;
      destruct need; try reflexivity;
      destruct (hexValue h1), (hexValue h2);
      try reflexivity; discriminate Hb.
  - destruct a as [|c a]; [apply (IH "" b); [cbn; lia | exact Hb]|].
    cbn [String.length] in Hlen. cbn [append decodeFrom].
    assert (Hrec : forall n l h, decodeFrom n l h (a ++ String "%" b) = None)
      by (intros; apply IH; [lia | exact Hb]).
    destruct (Ascii.eqb c "%") eqn:Ec.
    + destruct a as [|h1 [|h2 a]]; cbn [append].
      * destruct b as [|h2 b']; destruct need; reflexivity.
      * rewrite hexValue_percent. destruct need; now destruct (hexValue h1).
      * assert (Hrec2 : forall n l h,
                   decodeFrom n l h (a ++ String "%" b) = None)
          by (intros; apply IH; [cbn [String.length] in Hlen; lia | exact Hb]).
        destruct need; destruct (hexValue h1), (hexValue h2);
          try reflexivity.
        -- destruct (_ <? 128)%N; [now rewrite Hrec2|].
           destruct (utf8Lead _) as [[[n' l'] h']|]; [now rewrite Hrec2|].
           reflexivity.
        -- destruct (_ && _)%bool; [now rewrite Hrec2 | reflexivity].
    + destruct need; [now rewrite Hrec | reflexivity].
Qed.

(** X24.  A percent sign that no two hexadecimal digits follow leaves
    the whole text as written: nothing of it is decoded, the well-formed
    escapes before that percent sign included. *)
Theorem decodeComponent_malformed (a b : string) :
  startsWithHexPair b = false ->
  decodeComponent (a ++ String "%" b) = a ++ String "%" b.
Proof.
  intros Hb. unfold decodeComponent, decodeURIComponent.
  now rewrite (decodeFrom_malformed (String.length a) a b 0 0 0 (le_n _) Hb).
Qed.

Lemma decodeComponent_malformed_witness :
  decodeComponent ("p%40ss" ++ String "%" "") = "p%40ss" ++ String "%" "".
Proof.
  apply decodeComponent_malformed. reflexivity.
Defined.

(** X25.  The text before the first [://] is not examined: with any
    scheme without a colon, the empty one included, the string parses as with
    any other. *)
Theorem parseConnectionString_ignores_scheme (scheme other rest : string) :
  lacks ":" scheme = true ->
  lacks ":" other = true ->
  parseConnectionString (scheme ++ "://" ++ rest)
  = parseConnectionString (other ++ "://" ++ rest).
Proof.
  intros Hs Ho. unfold parseConnectionString.
  rewrite (indexOf_scheme _ _ Hs), (indexOf_scheme _ _ Ho).
  rewrite !slice_after. reflexivity.
Qed.

Lemma parseConnectionString_ignores_scheme_witness :
  parseConnectionString ("mysql" ++ "://" ++ "u:p@h:1/db")
  = parseConnectionString ("" ++ "://" ++ "u:p@h:1/db").
Proof.
  apply parseConnectionString_ignores_scheme; reflexivity.
Defined.
